(** * ReSlides: the script parser [parseScript]

    The repository holds three copies of [parseScript]:
    - [src/script.js] (the web application),
    - the older front-end script (kept under [src/unnamed/part_000]),
    - the node test script that follows the README
      (kept under [src/unnamed/part_001]).

    The two older copies differ in one regular expression only (the one of
    the title keyword); the copy of [src/script.js] was rewritten.  All three
    are embedded below, over a small model of the JavaScript built-ins they
    call ([split], [trim], [RegExp.test], [replace], [parseFloat]). *)

From Stdlib Require Import List NArith ZArith Bool String Ascii Lia.
From Stdlib Require Import DecimalN.
Import ListNotations.

Local Open Scope N_scope.

(** ** JavaScript strings and the built-ins used by the parser *)

Module Js.

(** A JavaScript string is a sequence of UTF-16 code units. *)
Definition jsstring := list N.

(** Literals are written as Rocq strings; the bytes of a literal are the
    UTF-8 encoding of the text, decoded here to code units (the decoder
    covers the Basic Multilingual Plane, which is all the sources use). *)
Fixpoint utf8 (bs : list N) : jsstring :=
  match bs with
  | [] => []
  | b :: rest =>
      if b <? 128 then b :: utf8 rest
      else if b <? 224 then
        match rest with
        | b1 :: rest' => ((b - 192) * 64 + (b1 - 128)) :: utf8 rest'
        | [] => []
        end
      else
        match rest with
        | b1 :: b2 :: rest' =>
            ((b - 224) * 4096 + (b1 - 128) * 64 + (b2 - 128)) :: utf8 rest'
        | _ => []
        end
  end.

Definition str (s : string) : jsstring :=
  utf8 (map N_of_ascii (list_ascii_of_string s)).

(** [!s] and [Boolean(s)] on a string: only the empty string is falsy. *)
Definition truthy (s : jsstring) : bool :=
  match s with [] => false | _ :: _ => true end.

(** WhiteSpace and LineTerminator of ECMAScript: what [trim] removes and
    what [\s] matches. *)
Definition isWhiteSpace (c : N) : bool :=
  existsb (N.eqb c)
    [9; 10; 11; 12; 13; 32; 160; 5760; 8232; 8233; 8239; 8287; 12288; 65279]
  || ((8192 <=? c) && (c <=? 8202)).

(** [\d] *)
Definition isDigit (c : N) : bool := (48 <=? c) && (c <=? 57).

Fixpoint trimStart (s : jsstring) : jsstring :=
  match s with
  | c :: s' => if isWhiteSpace c then trimStart s' else s
  | [] => []
  end.

Definition trimEnd (s : jsstring) : jsstring := rev (trimStart (rev s)).

(** [s.trim()] *)
Definition trim (s : jsstring) : jsstring := trimEnd (trimStart s).

(** [s.split(sep)] for a separator of one code unit ([';'] and [',']):
    the pieces between the separators, [[""]] for the empty string. *)
Fixpoint split (sep : N) (s : jsstring) : list jsstring :=
  match s with
  | [] => [[]]
  | c :: s' =>
      if c =? sep then [] :: split sep s'
      else match split sep s' with
           | piece :: pieces => (c :: piece) :: pieces
           | [] => [[c]]
           end
  end.

Definition CR : N := 13.
Definition LF : N := 10.

(** [raw.split(/\r?\n/)]: a line ends at a line feed, and a carriage
    return right before that line feed belongs to the separator.  A
    carriage return anywhere else stays in its line. *)
Fixpoint splitLines (s : jsstring) : list jsstring :=
  match s with
  | [] => [[]]
  | c :: s' =>
      if c =? LF then [] :: splitLines s'
      else
        match s' with
        | c' :: s'' =>
            if (c =? CR) && (c' =? LF) then [] :: splitLines s''
            else match splitLines s' with
                 | line :: lines => (c :: line) :: lines
                 | [] => [[c]]
                 end
        | [] => [[c]]
        end
  end.

(** Canonicalize of the regular-expression semantics under the [i] flag
    (no [u] flag): a code unit is compared through its upper-case form.
    The table covers U+0000..U+00FF, where all characters of the patterns
    of [parseScript] live: a..z and the Latin-1 letters U+00E0..U+00FE
    (but the division sign U+00F7) map 32 below.  The sharp s, the micro
    sign and y with diaeresis have upper-case forms outside Latin-1 or of
    several code units, and no code unit above U+00FF canonicalizes into
    Latin-1, so they and the code units above U+00FF can be left in place:
    none of them ever equals the canonical form of a pattern character. *)
Definition canonicalize (c : N) : N :=
  if (97 <=? c) && (c <=? 122) then c - 32
  else if (224 <=? c) && (c <=? 254) && negb (c =? 247) then c - 32
  else c.

Definition eqCI (p c : N) : bool := canonicalize p =? canonicalize c.

(** The patterns of [parseScript].  Every one of them is anchored at the
    start of the string ([^]) and carries the [i] flag, so both are part of
    the matcher rather than of the syntax. *)
Inductive regex : Type :=
| Chars (p : jsstring)        (* a run of pattern characters *)
| Alt (r1 r2 : regex)         (* r1|r2 *)
| Seq (r1 r2 : regex)         (* r1r2 *)
| Opt (r : regex)             (* r? *)
| Plus (cls : N -> bool).     (* \s+ and \d+ *)

Fixpoint stripPrefixCI (p s : jsstring) : option jsstring :=
  match p, s with
  | [], _ => Some s
  | a :: p', c :: s' => if eqCI a c then stripPrefixCI p' s' else None
  | _ :: _, [] => None
  end.

(** [cls+]: greedy, giving characters back one at a time when the rest of
    the pattern fails. *)
Fixpoint plusFrom {A : Type} (cls : N -> bool) (s : jsstring)
    (k : jsstring -> option A) : option A :=
  match s with
  | c :: s' =>
      if cls c then
        match plusFrom cls s' k with
        | Some x => Some x
        | None => k s'
        end
      else None
  | [] => None
  end.

(** Backtracking matcher in continuation-passing style: [rmatch r s k]
    matches [r] at the start of [s] and hands the rest of the string to
    [k]; alternatives are tried left to right, [?] and [+] are greedy. *)
Fixpoint rmatch {A : Type} (r : regex) (s : jsstring)
    (k : jsstring -> option A) : option A :=
  match r with
  | Chars p =>
      match stripPrefixCI p s with
      | Some rest => k rest
      | None => None
      end
  | Alt r1 r2 =>
      match rmatch r1 s k with
      | Some x => Some x
      | None => rmatch r2 s k
      end
  | Seq r1 r2 => rmatch r1 s (fun s' => rmatch r2 s' k)
  | Opt r1 =>
      match rmatch r1 s k with
      | Some x => Some x
      | None => k s
      end
  | Plus cls => plusFrom cls s k
  end.

(** The string after the match of an anchored pattern, if it matches. *)
Definition exec (r : regex) (s : jsstring) : option jsstring :=
  rmatch r s (fun rest => Some rest).

(** [r.test(s)] *)
Definition test (r : regex) (s : jsstring) : bool :=
  match exec r s with Some _ => true | None => false end.

(** [s.replace(r, '')] without the [g] flag: the match, which starts at
    index 0, is cut out; a string that does not match is returned as is. *)
Definition replace (r : regex) (s : jsstring) : jsstring :=
  match exec r s with Some rest => rest | None => s end.

(** Numbers.  [parseFloat] reads a decimal literal; the value is kept as
    the decimal that was read, [(-1)^neg * mant * 10^exp10].  The rounding
    of that decimal to a binary64 double is not part of the model. *)
Inductive jsnum : Type :=
| NaN
| Infinity (neg : bool)
| Dec (neg : bool) (mant : N) (exp10 : Z).

Definition isNaN (v : jsnum) : bool :=
  match v with NaN => true | _ => false end.

(** The longest prefix of [s] made of characters of [cls], and the rest. *)
Fixpoint span (cls : N -> bool) (s : jsstring) : jsstring * jsstring :=
  match s with
  | c :: s' =>
      if cls c then let (run, rest) := span cls s' in (c :: run, rest)
      else ([], s)
  | [] => ([], [])
  end.

Definition digitsValue (ds : jsstring) : N :=
  fold_left (fun acc d => 10 * acc + (d - 48)) ds 0.

(** ExponentPart: [e] or [E], an optional sign, at least one digit;
    otherwise the literal ends before it. *)
Definition exponentPart (s : jsstring) : Z :=
  match s with
  | e :: s1 =>
      if (e =? 101) || (e =? 69) then
        let (neg, s2) :=
          match s1 with
          | sg :: s2 =>
              if sg =? 45 then (true, s2)
              else if sg =? 43 then (false, s2)
              else (false, s1)
          | [] => (false, s1)
          end in
        let (ds, _) := span isDigit s2 in
        match ds with
        | [] => 0%Z
        | _ :: _ =>
            if neg then (- Z.of_N (digitsValue ds))%Z
            else Z.of_N (digitsValue ds)
        end
      else 0%Z
  | [] => 0%Z
  end.

Fixpoint startsWith (p s : jsstring) : bool :=
  match p, s with
  | [], _ => true
  | a :: p', c :: s' => (a =? c) && startsWith p' s'
  | _ :: _, [] => false
  end.

(** [parseFloat(s)]: leading white space is skipped, then the longest
    prefix that is a StrDecimalLiteral is read; [NaN] when there is none. *)
Definition parseFloat (s : jsstring) : jsnum :=
  let s0 := trimStart s in
  let (neg, s1) :=
    match s0 with
    | sg :: s1 =>
        if sg =? 45 then (true, s1)
        else if sg =? 43 then (false, s1)
        else (false, s0)
    | [] => (false, s0)
    end in
  if startsWith (str "Infinity") s1 then Infinity neg
  else
    let (ip, s2) := span isDigit s1 in
    let (fp, s3) :=
      match s2 with
      | dot :: s2' => if dot =? 46 then span isDigit s2' else ([], s2)
      | [] => ([], s2)
      end in
    match ip ++ fp with
    | [] => NaN
    | _ :: _ =>
        Dec neg (digitsValue (ip ++ fp))
            (exponentPart s3 - Z.of_nat (List.length fp))
    end.

(** Exceptions: a property access on [null] throws a [TypeError]. *)
Inductive exn : Type := TypeError.

Inductive result (A : Type) : Type :=
| Ok (a : A)
| Throw (e : exn).
Arguments Ok {A} a.
Arguments Throw {A} e.

Definition bind {A B : Type} (m : result A) (f : A -> result B) : result B :=
  match m with
  | Ok a => f a
  | Throw e => Throw e
  end.

(** [for (const x of xs) body]: the loop stops at the first exception. *)
Fixpoint forOf {S X : Type} (body : S -> X -> result S) (xs : list X) (st : S)
    : result S :=
  match xs with
  | [] => Ok st
  | x :: xs' => bind (body st x) (forOf body xs')
  end.

End Js.

Import Js.

Notation "x <- m ;; k" := (bind m (fun x => k))
  (at level 61, m at next level, right associativity).

(** ** The data model: slides *)

(** [{ labels: [], values: [] }] *)
Record Graph : Type := mkGraph {
  labels : list jsstring;
  values : list jsnum
}.

(** [{ title: '', content: [], graph: null, description: '', attachments: [] }] *)
Record Slide : Type := mkSlide {
  title : jsstring;
  content : list jsstring;
  graph : option Graph;
  description : jsstring;
  attachments : list jsstring
}.

Definition emptyGraph : Graph := mkGraph [] [].

Definition emptySlide : Slide := mkSlide [] [] None [] [].

(** The two variables of a run of [parseScript]: the array [slides] and
    the cursor [current] ([None] is [null]). *)
Record State : Type := mkState {
  slides : list Slide;
  current : option Slide
}.

Definition initial : State := mkState [] None.

(** Assignments to the fields of a slide or of a graph. *)
Definition setTitle (v : jsstring) (s : Slide) : Slide :=
  mkSlide v (content s) (graph s) (description s) (attachments s).

Definition pushContent (ts : list jsstring) (s : Slide) : Slide :=
  mkSlide (title s) (content s ++ ts) (graph s) (description s) (attachments s).

Definition setGraph (g : Graph) (s : Slide) : Slide :=
  mkSlide (title s) (content s) (Some g) (description s) (attachments s).

Definition setDescription (v : jsstring) (s : Slide) : Slide :=
  mkSlide (title s) (content s) (graph s) v (attachments s).

Definition pushAttachments (ts : list jsstring) (s : Slide) : Slide :=
  mkSlide (title s) (content s) (graph s) (description s) (attachments s ++ ts).

Definition setLabels (ls : list jsstring) (g : Graph) : Graph :=
  mkGraph ls (values g).

Definition setValues (vs : list jsnum) (g : Graph) : Graph :=
  mkGraph (labels g) vs.

(** [current.f = v] and [current.f.push(...)]: the access to a field of
    [current] throws when [current] is [null]. *)
Definition onCurrent (f : Slide -> Slide) (st : State) : result State :=
  match current st with
  | Some c => Ok (mkState (slides st) (Some (f c)))
  | None => Throw TypeError
  end.

(** [if (current) slides.push(current);
     current = { title: '', content: [], graph: null, ... };] *)
Definition startNewSlide (st : State) : State :=
  mkState
    (match current st with
     | Some c => slides st ++ [c]
     | None => slides st
     end)
    (Some emptySlide).

(** [if (current) slides.push(current); return slides;] *)
Definition finish (st : State) : list Slide :=
  match current st with
  | Some c => slides st ++ [c]
  | None => slides st
  end.

Definition semicolon : N := 59.
Definition comma : N := 44.

(** [.map(s => s.trim()).filter(Boolean)] *)
Definition trimmedNonEmpty (parts : list jsstring) : list jsstring :=
  filter truthy (map trim parts).

(** [.map(s => parseFloat(s.trim())).filter(v => !isNaN(v))] *)
Definition parsedNumbers (parts : list jsstring) : list jsnum :=
  filter (fun v => negb (isNaN v)) (map (fun x => parseFloat (trim x)) parts).

(** The slide marker, the same pattern in the three copies:
    [/^Diapositiva\s+\d+/i] *)
Definition reSlide : regex :=
  Seq (Chars (str "Diapositiva")) (Seq (Plus isWhiteSpace) (Plus isDigit)).

(** ** [parseScript] of [src/script.js] *)

Module ScriptJs.

(** [/^(Título|Titulo):/i] *)
Definition reTitle : regex :=
  Seq (Alt (Chars (str "Título")) (Chars (str "Titulo"))) (Chars (str ":")).

(** [/^(Contenido|Contexto):/i] *)
Definition reContent : regex :=
  Seq (Alt (Chars (str "Contenido")) (Chars (str "Contexto")))
      (Chars (str ":")).

(** [/^Datos:/i] *)
Definition reData : regex := Chars (str "Datos:").

(** [/^(labels?|etiquetas?):/i] *)
Definition reLabels : regex :=
  Seq (Alt (Seq (Chars (str "label")) (Opt (Chars (str "s"))))
           (Seq (Chars (str "etiqueta")) (Opt (Chars (str "s")))))
      (Chars (str ":")).

(** [/^(valores?|values?):/i] *)
Definition reValues : regex :=
  Seq (Alt (Seq (Chars (str "valore")) (Opt (Chars (str "s"))))
           (Seq (Chars (str "value")) (Opt (Chars (str "s")))))
      (Chars (str ":")).

(** [/^(Descripción|Descripcion):/i] *)
Definition reDescription : regex :=
  Seq (Alt (Chars (str "Descripción")) (Chars (str "Descripcion")))
      (Chars (str ":")).

(** [/^Adjunto:/i] *)
Definition reAttachment : regex := Chars (str "Adjunto:").

(** [if (!current) startNewSlide();] *)
Definition ensureCurrent (st : State) : State :=
  match current st with
  | Some _ => st
  | None => startNewSlide st
  end.

(** The body of [parts.forEach((sec) => ...)] on the graph being built. *)
Definition section (g : Graph) (sec : jsstring) : Graph :=
  let s := trim sec in
  if negb (truthy s) then g
  else if test reLabels s then
    let labelStr := trim (replace reLabels s) in
    setLabels (trimmedNonEmpty (split comma labelStr)) g
  else if test reValues s then
    let valStr := trim (replace reValues s) in
    setValues (parsedNumbers (split comma valStr)) g
  else g.

(** The graph of a Data line, from the text after the keyword. *)
Definition dataGraph (rest : jsstring) : Graph :=
  fold_left section (split semicolon rest) emptyGraph.

(** [.forEach((t) => current.content.push(t))] *)
Definition pushEach (ts : list jsstring) (st : State) : result State :=
  forOf (fun st' t => onCurrent (pushContent [t]) st') ts st.

(** The body of [for (let rawLine of lines)]. *)
Definition processLine (st : State) (rawLine : jsstring) : result State :=
  let line := trim rawLine in
  if negb (truthy line) then Ok st
  else if test reSlide line then Ok (startNewSlide st)
  else if test reTitle line then
    let st := ensureCurrent st in
    onCurrent (setTitle (trim (replace reTitle line))) st
  else if test reContent line then
    let st := ensureCurrent st in
    let text := trim (replace reContent line) in
    if truthy text then pushEach (trimmedNonEmpty (split semicolon text)) st
    else Ok st
  else if test reData line then
    let st := ensureCurrent st in
    let rest := trim (replace reData line) in
    onCurrent (setGraph (dataGraph rest)) st
  else if test reDescription line then
    let st := ensureCurrent st in
    onCurrent (setDescription (trim (replace reDescription line))) st
  else if test reAttachment line then
    let st := ensureCurrent st in
    let rest := trim (replace reAttachment line) in
    if truthy rest then
      onCurrent (pushAttachments (trimmedNonEmpty (split comma rest))) st
    else Ok st
  else
    let st := ensureCurrent st in
    pushEach (trimmedNonEmpty (split semicolon line)) st.

Definition parseScript (raw : jsstring) : result (list Slide) :=
  st <- forOf processLine (splitLines raw) initial ;;
  Ok (finish st).

End ScriptJs.

(** ** [parseScript] of the two older copies

    The front-end script of [src/unnamed/part_000] and the test script of
    [src/unnamed/part_001] are the same text but for the pattern of the
    title keyword, which is the parameter here. *)

Module Legacy.

Section Copy.

Variable reTitle : regex.

(** [/^(Contenido|Contexto):/i] *)
Definition reContent : regex :=
  Seq (Alt (Chars (str "Contenido")) (Chars (str "Contexto")))
      (Chars (str ":")).

(** [/^Datos:/i], [/^Gráfica:/i], [/^Grafica:/i] *)
Definition reDatos : regex := Chars (str "Datos:").
Definition reGraficaAcute : regex := Chars (str "Gráfica:").
Definition reGrafica : regex := Chars (str "Grafica:").

(** [/^Gráfica:|^Grafica:|^Datos:/i] *)
Definition reDataPrefix : regex :=
  Alt (Alt (Chars (str "Gráfica:")) (Chars (str "Grafica:")))
      (Chars (str "Datos:")).

(** [/^labels?/i] (the test) and [/^labels?:/i] (the replacement) *)
Definition reLabelsTest : regex :=
  Seq (Chars (str "label")) (Opt (Chars (str "s"))).
Definition reLabels : regex :=
  Seq (Seq (Chars (str "label")) (Opt (Chars (str "s")))) (Chars (str ":")).

(** [/^(valores?|values?)/i] (the test) and [/^(valores?|values?):/i] *)
Definition reValuesTest : regex :=
  Alt (Seq (Chars (str "valore")) (Opt (Chars (str "s"))))
      (Seq (Chars (str "value")) (Opt (Chars (str "s")))).
Definition reValues : regex :=
  Seq (Alt (Seq (Chars (str "valore")) (Opt (Chars (str "s"))))
           (Seq (Chars (str "value")) (Opt (Chars (str "s")))))
      (Chars (str ":")).

(** [/^Descripción:/i], [/^Descripcion:/i] and
    [/^(Descripción|Descripcion):/i] *)
Definition reDescripcionAcute : regex := Chars (str "Descripción:").
Definition reDescripcion : regex := Chars (str "Descripcion:").
Definition reDescription : regex :=
  Seq (Alt (Chars (str "Descripción")) (Chars (str "Descripcion")))
      (Chars (str ":")).

(** [/^Adjunto:/i] *)
Definition reAttachment : regex := Chars (str "Adjunto:").

(** [raw.split(/\r?\n/).map(l => l.trim()).filter(l => l.length > 0)] *)
Definition lines (raw : jsstring) : list jsstring :=
  filter (fun l => (0 <? List.length l)%nat) (map trim (splitLines raw)).

(** The body of [sections.forEach(sec => ...)]. *)
Definition section (g : Graph) (sec : jsstring) : Graph :=
  if test reLabelsTest sec then
    setLabels (trimmedNonEmpty (split comma (replace reLabels sec))) g
  else if test reValuesTest sec then
    setValues (parsedNumbers (split comma (replace reValues sec))) g
  else g.

(** The graph of a Data line, from the text after the keyword. *)
Definition dataGraph (rest : jsstring) : Graph :=
  fold_left section (map trim (split semicolon rest)) emptyGraph.

(** The body of [for (const line of lines)]: a chain of [else if]. *)
Definition processLine (st : State) (line : jsstring) : result State :=
  if test reSlide line then Ok (startNewSlide st)
  else if test reTitle line then
    onCurrent (setTitle (trim (replace reTitle line))) st
  else if test reContent line then
    let parts :=
      trimmedNonEmpty (split semicolon (trim (replace reContent line))) in
    onCurrent (pushContent parts) st
  else if test reDatos line || test reGraficaAcute line || test reGrafica line
  then
    let rest := trim (replace reDataPrefix line) in
    onCurrent (setGraph (dataGraph rest)) st
  else if test reDescripcionAcute line || test reDescripcion line then
    onCurrent (setDescription (trim (replace reDescription line))) st
  else if test reAttachment line then
    let atts := trimmedNonEmpty (split comma (replace reAttachment line)) in
    onCurrent (pushAttachments atts) st
  else
    match current st with
    | Some _ =>
        onCurrent (pushContent (trimmedNonEmpty (split semicolon line))) st
    | None => Ok st
    end.

Definition parseScript (raw : jsstring) : result (list Slide) :=
  st <- forOf processLine (lines raw) initial ;;
  Ok (finish st).

End Copy.

End Legacy.

(** [src/unnamed/part_000]: [/^(Título|Titulo):/i] *)
Module Part000.

Definition reTitle : regex :=
  Seq (Alt (Chars (str "Título")) (Chars (str "Titulo"))) (Chars (str ":")).

Definition parseScript : jsstring -> result (list Slide) :=
  Legacy.parseScript reTitle.

End Part000.

(** [src/unnamed/part_001]: [/^Título:/i] *)
Module Part001.

Definition reTitle : regex := Chars (str "Título:").

Definition parseScript : jsstring -> result (list Slide) :=
  Legacy.parseScript reTitle.

End Part001.

(** ** The functions of [src/script.js] around the parser

    What the page does with the slides: the colour conversion for the
    slide-show export, the escaping of text that goes into the pages, the
    choice and the names of the pages of the graphs, and the text of the
    README of the package. *)

Module JsText.

(** [s.replace(/c/g, by)] for a pattern of one code unit: every occurrence
    is replaced, and what was put in is not looked at again. *)
Definition replaceAll (c : N) (by_ : jsstring) (s : jsstring) : jsstring :=
  flat_map (fun x => if x =? c then by_ else [x]) s.

(** [s.replace(c, by)] for a string pattern of one code unit: the first
    occurrence only. *)
Fixpoint replaceFirst (c : N) (by_ : jsstring) (s : jsstring) : jsstring :=
  match s with
  | [] => []
  | x :: s' => if x =? c then by_ ++ s' else x :: replaceFirst c by_ s'
  end.

Fixpoint uintUnits (d : Decimal.uint) : jsstring :=
  match d with
  | Decimal.Nil => []
  | Decimal.D0 d' => 48 :: uintUnits d'
  | Decimal.D1 d' => 49 :: uintUnits d'
  | Decimal.D2 d' => 50 :: uintUnits d'
  | Decimal.D3 d' => 51 :: uintUnits d'
  | Decimal.D4 d' => 52 :: uintUnits d'
  | Decimal.D5 d' => 53 :: uintUnits d'
  | Decimal.D6 d' => 54 :: uintUnits d'
  | Decimal.D7 d' => 55 :: uintUnits d'
  | Decimal.D8 d' => 56 :: uintUnits d'
  | Decimal.D9 d' => 57 :: uintUnits d'
  end.

(** A counter or an array length inside a template literal: its decimal
    digits. *)
Definition numberToString (n : N) : jsstring := uintUnits (N.to_uint n).

(** [parts.join(sep)] *)
Fixpoint join (sep : jsstring) (parts : list jsstring) : jsstring :=
  match parts with
  | [] => []
  | p :: ps =>
      match ps with
      | [] => p
      | _ :: _ => p ++ sep ++ join sep ps
      end
  end.

(** The upper-case form of a code unit below U+0080. *)
Definition upperAscii (c : N) : N :=
  if (97 <=? c) && (c <=? 122) then c - 32 else c.

End JsText.

Module ScriptJsPage.

Import JsText.

(** [toPptxColor], lines 55-58.  The argument is a string or [null]
    ([None]).  [toUpperCase] follows the case tables of Unicode, which are
    not part of the repository: it is a parameter here, and the statements
    about colours assume of it what it does to a string of code units below
    U+0080. *)
Section ToPptxColor.

Variable toUpperCase : jsstring -> jsstring.

Definition toPptxColor (hex : option jsstring) : jsstring :=
  match hex with
  | None => str "000000"
  | Some h =>
      if negb (truthy h) then str "000000"
      else toUpperCase (replaceFirst 35 [] h)
  end.

End ToPptxColor.

(** The function [esc] of [generateGraphHtml], lines 172-173:
    [String(str == null ? '' : str).replace(/&/g, '&amp;')
       .replace(/</g, '&lt;')] *)
Definition escGraph (s : option jsstring) : jsstring :=
  let text := match s with Some t => t | None => [] end in
  replaceAll 60 (str "&lt;") (replaceAll 38 (str "&amp;") text).

(** The function [esc] of [generatePresentation], lines 227-233: five
    replacements, one after the other. *)
Definition esc (s : option jsstring) : jsstring :=
  let text := match s with Some t => t | None => [] end in
  replaceAll 39 (str "&#39;")
    (replaceAll 34 (str "&quot;")
       (replaceAll 62 (str "&gt;")
          (replaceAll 60 (str "&lt;")
             (replaceAll 38 (str "&amp;") text)))).

(** [slide.graph && slide.graph.labels && slide.graph.labels.length &&
     slide.graph.values && slide.graph.values.length], as a condition:
    a graph, at least one label and at least one value.  The same
    expression stands in [generatePresentation] (line 259),
    [generateReadme] (line 384), [generatePptx] (lines 467-472) and the
    submit handler (lines 596-601). *)
Definition hasGraph (s : Slide) : bool :=
  match graph s with
  | Some g =>
      negb (List.length (labels g) =? 0)%nat
      && negb (List.length (values g) =? 0)%nat
  | None => false
  end.

(** [generateReadme], lines 381-400. *)
Definition generateReadme (slides : list Slide) : jsstring :=
  let totalSlides := N.of_nat (List.length slides) in
  let graphs := N.of_nat (List.length (filter hasGraph slides)) in
  join [LF]
    [str "# ReSlides - Presentación generada";
     [];
     str "- Diapositivas: " ++ numberToString totalSlides;
     str "- Diapositivas con gráficas: " ++ numberToString graphs;
     [];
     str "Archivos incluidos:";
     str "- `presentacion.html`: presentación principal con estilo y gráficas integradas.";
     str "- `graficaN.html`: páginas individuales para cada gráfica (si aplica).";
     [];
     str "Este paquete fue generado automáticamente a partir de un guion en la app web ReSlides.";
     []].

(** [{ filename, html }] *)
Record GraphFile : Type := mkGraphFile {
  filename : jsstring;
  html : jsstring
}.

(** How far the submit handler gets: the two early returns, and the point
    behind the loop that builds [graphFiles]. *)
Inductive Submitted : Type :=
| Alerted    (* alert('Escribe un guion ...'); return; *)
| NoSlides   (* the message 'No se detectaron diapositivas. ...'; return; *)
| Built (slides : list Slide) (graphFiles : list GraphFile).

(** The loop of the submit handler that builds [graphFiles], lines
    593-607.  The text of a page is whatever [generateGraphHtml] returns
    for the slide and its number (the theme and the fonts are fixed during
    the loop); nothing below depends on that text, so the function is a
    parameter. *)
Section GraphFiles.

Variable generateGraphHtml : Slide -> N -> jsstring.

(** The body of [slides.forEach((slide) => ...)] on the pair of
    [graphFiles] and [graphIndex]. *)
Definition graphFileStep (acc : list GraphFile * N) (slide : Slide)
    : list GraphFile * N :=
  let (graphFiles, graphIndex) := acc in
  if negb (hasGraph slide) then acc
  else
    let filename :=
      str "grafica" ++ numberToString graphIndex ++ str ".html" in
    let html := generateGraphHtml slide graphIndex in
    (graphFiles ++ [mkGraphFile filename html], graphIndex + 1).

Definition buildGraphFiles (slides : list Slide) : list GraphFile :=
  fst (fold_left graphFileStep slides ([], 1)).

(** The submit handler from the text of the input field to [graphFiles],
    lines 557-607: which of its returns is taken, and with what.  What it
    writes to the page on the way is left out. *)
Definition onSubmit (value : jsstring) : result Submitted :=
  let rawScript := trim value in
  if negb (truthy rawScript) then Ok Alerted
  else
    slides <- ScriptJs.parseScript rawScript ;;
    if (List.length slides =? 0)%nat then Ok NoSlides
    else Ok (Built slides (buildGraphFiles slides)).

End GraphFiles.

End ScriptJsPage.

(** ** Vocabulary of the statements *)

(** A line is blank when nothing is left of it after trimming. *)
Definition blank (l : jsstring) : bool := negb (truthy (trim l)).

(** A string that is empty or made of white space only. *)
Definition whitespaceOnly (s : jsstring) : bool := forallb isWhiteSpace s.

(** The lines [ls] written out again with a line break between them. *)
Fixpoint joinLines (sep : jsstring) (ls : list jsstring) : jsstring :=
  match ls with
  | [] => []
  | l :: ls' =>
      match ls' with
      | [] => l
      | _ :: _ => l ++ sep ++ joinLines sep ls'
      end
  end.

Definition lineBreak (crlf : bool) : jsstring :=
  if crlf then [CR; LF] else [LF].

(** The input with its blank lines removed. *)
Definition removeBlankLines (crlf : bool) (raw : jsstring) : jsstring :=
  joinLines (lineBreak crlf) (filter (fun l => negb (blank l)) (splitLines raw)).

(** A script written line by line, with a line feed between the lines. *)
Definition script (ls : list string) : jsstring := joinLines [LF] (map str ls).

(** The same word up to letter case. *)
Definition sameWordCI (p w : jsstring) : Prop :=
  Forall2 (fun a c => eqCI a c = true) p w.

(** No empty and no white-space-only fragment in the lists of a slide. *)
Definition fragmentsOk (l : list jsstring) : Prop :=
  Forall (fun s => whitespaceOnly s = false) l.

Definition slideOk (s : Slide) : Prop :=
  fragmentsOk (content s) /\
  fragmentsOk (attachments s) /\
  match graph s with
  | Some g => fragmentsOk (labels g)
  | None => True
  end.

(** The numbers of the tokens that parse, in order: the tokens that do not
    parse leave nothing behind. *)
Fixpoint keptNumbers (tokens : list jsstring) : list jsnum :=
  match tokens with
  | [] => []
  | t :: ts =>
      match parseFloat (trim t) with
      | NaN => keptNumbers ts
      | v => v :: keptNumbers ts
      end
  end.


(** The invariant of the loop: no blank fragment in any slide. *)
Definition stateOk (st : State) : Prop :=
  Forall slideOk (slides st) /\
  match current st with
  | Some c => slideOk c
  | None => True
  end.

(** A line with no line feed in it. *)
Definition noLF (l : jsstring) : bool := forallb (fun c => negb (c =? LF)) l.

(** A line without its last code unit when that is a carriage return. *)
Fixpoint chomp (l : jsstring) : jsstring :=
  match l with
  | [] => []
  | c :: l' =>
      match l' with
      | [] => if c =? CR then [] else [c]
      | _ :: _ => c :: chomp l'
      end
  end.

(** The lines the parser looks at: trimmed, and not empty. *)
Definition trimmedLines (raw : jsstring) : list jsstring :=
  filter truthy (map trim (splitLines raw)).

(** A pattern that starts with a pattern character in each of its
    alternatives, and the canonical forms of the first code unit of
    whatever it matches. *)
Fixpoint headed (r : regex) : bool :=
  match r with
  | Chars (_ :: _) => true
  | Alt r1 r2 => headed r1 && headed r2
  | Seq r1 _ => headed r1
  | _ => false
  end.

Fixpoint heads (r : regex) : list N :=
  match r with
  | Chars (a :: _) => [canonicalize a]
  | Alt r1 r2 => heads r1 ++ heads r2
  | Seq r1 _ => heads r1
  | _ => []
  end.

(** *** The loop bodies as functions on states

    A second reading of the loop body of each copy, without the
    exceptions, in which the statements below are phrased; the lemmas
    [processLine_step] (for [src/script.js], where no line throws) and
    [processLine_current] (for the older copies, when there is a current
    slide) relate it to the embedded code. *)

Module ScriptJsSpec.

Import ScriptJs.

(** What a line that is no slide marker does to the slide under the
    cursor: the chain of [if (...) { ...; continue; }], without the
    exceptions, which the lemmas below show cannot occur. *)
Definition update (line : jsstring) (c : Slide) : Slide :=
  if test reTitle line then setTitle (trim (replace reTitle line)) c
  else if test reContent line then
    let text := trim (replace reContent line) in
    if truthy text then pushContent (trimmedNonEmpty (split semicolon text)) c
    else c
  else if test reData line then
    setGraph (dataGraph (trim (replace reData line))) c
  else if test reDescription line then
    setDescription (trim (replace reDescription line)) c
  else if test reAttachment line then
    let rest := trim (replace reAttachment line) in
    if truthy rest then pushAttachments (trimmedNonEmpty (split comma rest)) c
    else c
  else pushContent (trimmedNonEmpty (split semicolon line)) c.

(** The slide under the cursor, a new one if there is none yet. *)
Definition cursor (st : State) : Slide :=
  match current st with
  | Some c => c
  | None => emptySlide
  end.

(** One trimmed, non-empty line. *)
Definition stepLine (st : State) (line : jsstring) : State :=
  if test reSlide line then startNewSlide st
  else mkState (slides st) (Some (update line (cursor st))).

(** One line of the input. *)
Definition step (st : State) (rawLine : jsstring) : State :=
  if truthy (trim rawLine) then stepLine st (trim rawLine) else st.

(** What a line adds to [content]. *)
Definition contentOf (line : jsstring) : list jsstring :=
  if test reTitle line then []
  else if test reContent line then
    trimmedNonEmpty (split semicolon (trim (replace reContent line)))
  else if test reData line || test reDescription line || test reAttachment line
  then []
  else trimmedNonEmpty (split semicolon line).

(** A line that matches none of the keyword patterns. *)
Definition unrecognized (line : jsstring) : bool :=
  negb (test reSlide line || test reTitle line || test reContent line
        || test reData line || test reDescription line
        || test reAttachment line).

(** The values sub-key: the section that the second branch of the
    [forEach] body takes, and the text it reads the numbers from. *)
Definition isValuesSection (sec : jsstring) : bool :=
  truthy (trim sec) && negb (test reLabels (trim sec))
  && test reValues (trim sec).

Definition valuesText (sec : jsstring) : jsstring :=
  trim (replace reValues (trim sec)).

(** A section under neither sub-key. *)
Definition noSubKey (sec : jsstring) : bool :=
  negb (test reLabels (trim sec)) && negb (test reValues (trim sec)).

End ScriptJsSpec.

Module LegacySpec.

Import Legacy.

Section Copy.

Variable reTitle : regex.

(** What a line that is no slide marker does to the current slide, when
    there is one. *)
Definition update (line : jsstring) (c : Slide) : Slide :=
  if test reTitle line then setTitle (trim (replace reTitle line)) c
  else if test reContent line then
    pushContent
      (trimmedNonEmpty (split semicolon (trim (replace reContent line)))) c
  else if test reDatos line || test reGraficaAcute line || test reGrafica line
  then setGraph (dataGraph (trim (replace reDataPrefix line))) c
  else if test reDescripcionAcute line || test reDescripcion line then
    setDescription (trim (replace reDescription line)) c
  else if test reAttachment line then
    pushAttachments (trimmedNonEmpty (split comma (replace reAttachment line))) c
  else pushContent (trimmedNonEmpty (split semicolon line)) c.

Definition stepLine (st : State) (line : jsstring) : State :=
  if test reSlide line then startNewSlide st
  else mkState (slides st) (option_map (update line) (current st)).

(** A line that matches no pattern: not the marker, no keyword. *)
Definition unrecognized (line : jsstring) : bool :=
  negb (test reSlide line || test reTitle line || test reContent line
        || test reDatos line || test reGraficaAcute line || test reGrafica line
        || test reDescripcionAcute line || test reDescripcion line
        || test reAttachment line).

End Copy.

(** A line that starts with one of the three spellings of the Data
    keyword. *)
Definition isDataLine (line : jsstring) : bool :=
  test Legacy.reDatos line || test Legacy.reGraficaAcute line
  || test Legacy.reGrafica line.

Definition isValuesSection (sec : jsstring) : bool :=
  negb (test Legacy.reLabelsTest sec) && test Legacy.reValuesTest sec.

Definition valuesText (sec : jsstring) : jsstring := replace Legacy.reValues sec.

Definition noSubKey (sec : jsstring) : bool :=
  negb (test Legacy.reLabelsTest sec) && negb (test Legacy.reValuesTest sec).

End LegacySpec.

(** A line of the input of [src/script.js] that is neither a Data line
    nor a slide marker. *)
Definition otherLine (l : jsstring) : Prop :=
  test ScriptJs.reData (trim l) = false /\ test reSlide (trim l) = false.

(** The same for a line of the older copies, which trim the lines before
    the loop. *)
Definition otherLegacyLine (l : jsstring) : Prop :=
  LegacySpec.isDataLine l = false /\ test reSlide l = false.

(** *** Vocabulary for the page-side functions *)

(** What [esc] writes for one code unit. *)
Definition escUnit (c : N) : jsstring :=
  if c =? 38 then str "&amp;"
  else if c =? 60 then str "&lt;"
  else if c =? 62 then str "&gt;"
  else if c =? 34 then str "&quot;"
  else if c =? 39 then str "&#39;"
  else [c].

(** The five code units that [esc] rewrites: ampersand, the two angle
    brackets, the two quotes. *)
Definition special (c : N) : bool :=
  (c =? 38) || (c =? 60) || (c =? 62) || (c =? 34) || (c =? 39).

(** One of 0-9, a-f, A-F. *)
Definition isHexDigit (c : N) : bool :=
  ((48 <=? c) && (c <=? 57)) || ((97 <=? c) && (c <=? 102))
  || ((65 <=? c) && (c <=? 70)).

(** One of 0-9, A-F. *)
Definition isUpperHexDigit (c : N) : bool :=
  ((48 <=? c) && (c <=? 57)) || ((65 <=? c) && (c <=? 70)).

(** The reading of what [esc] wrote: an ampersand followed by one of the
    five entity names stands for the code unit of that entity; [skip]
    counts the code units of the name still to pass over. *)
Fixpoint unescFrom (skip : nat) (s : jsstring) : jsstring :=
  match s with
  | [] => []
  | c :: s' =>
      match skip with
      | S k => unescFrom k s'
      | O =>
          if c =? 38 then
            if startsWith (str "amp;") s' then 38 :: unescFrom 4 s'
            else if startsWith (str "lt;") s' then 60 :: unescFrom 3 s'
            else if startsWith (str "gt;") s' then 62 :: unescFrom 3 s'
            else if startsWith (str "quot;") s' then 34 :: unescFrom 5 s'
            else if startsWith (str "#39;") s' then 39 :: unescFrom 4 s'
            else c :: unescFrom 0 s'
          else c :: unescFrom 0 s'
      end
  end.

Definition unesc (s : jsstring) : jsstring := unescFrom 0 s.

(** The name of the page of the graph number [k]. *)
Definition graphFileName (k : N) : jsstring :=
  str "grafica" ++ JsText.numberToString k ++ str ".html".

(** The pages of the slides [gs], numbered from [k] on. *)
Fixpoint numberedPages (generateGraphHtml : Slide -> N -> jsstring) (k : N)
    (gs : list Slide) : list ScriptJsPage.GraphFile :=
  match gs with
  | [] => []
  | g :: gs' =>
      ScriptJsPage.mkGraphFile (graphFileName k) (generateGraphHtml g k)
      :: numberedPages generateGraphHtml (k + 1) gs'
  end.

(** What an Attachment line of [src/script.js] adds to [attachments]. *)
Definition attachmentsOf (line : jsstring) : list jsstring :=
  if test ScriptJs.reAttachment line then
    trimmedNonEmpty (split comma (trim (replace ScriptJs.reAttachment line)))
  else [].

(** The first of the lines, if there is one, is a slide marker. *)
Definition startsWithMarker (ls : list jsstring) : Prop :=
  match ls with
  | [] => True
  | l :: _ => test reSlide l = true
  end.

(** The slide markers among the lines. *)
Definition countMarkers (ls : list jsstring) : nat :=
  List.length (filter (test reSlide) ls).

(** In the older copies: is there, before the first slide marker, a line
    that matches a keyword pattern? *)
Fixpoint keywordBeforeMarker (reTitle : regex) (ls : list jsstring) : bool :=
  match ls with
  | [] => false
  | l :: ls' =>
      if test reSlide l then false
      else if LegacySpec.unrecognized reTitle l then
        keywordBeforeMarker reTitle ls'
      else true
  end.

(** A string that [trim] leaves as it is. *)
Definition trimmed (s : jsstring) : Prop := trim s = s.

(** Every string kept in a slide is trimmed, and no value is [NaN]. *)
Definition slideClean (s : Slide) : Prop :=
  trimmed (title s) /\ trimmed (description s) /\
  Forall trimmed (content s) /\ Forall trimmed (attachments s) /\
  match graph s with
  | Some g =>
      Forall trimmed (labels g) /\ Forall (fun v => isNaN v = false) (values g)
  | None => True
  end.

Definition stateClean (st : State) : Prop :=
  Forall slideClean (slides st) /\
  match current st with
  | Some c => slideClean c
  | None => True
  end.

(** The same for a graph. *)
Definition graphClean (g : Graph) : Prop :=
  Forall trimmed (labels g) /\ Forall (fun v => isNaN v = false) (values g).

(** The number of slides, the slide under the cursor included. *)
Definition slideCount (st : State) : nat :=
  (List.length (slides st)
   + match current st with Some _ => 1 | None => 0 end)%nat.

(** ** Facts on the built-ins *)

Module JsFacts.

Lemma trimStart_head (s : jsstring) (c : N) (s' : jsstring) :
  trimStart s = c :: s' -> isWhiteSpace c = false.
Proof.
  induction s as [|a s IH]; simpl; [discriminate|].
  destruct (isWhiteSpace a) eqn:Ha; [exact IH|].
  intros E; injection E as -> _; exact Ha.
Qed.

Lemma trimStart_whitespaceOnly (s : jsstring) :
  whitespaceOnly s = true -> trimStart s = [].
Proof.
  induction s as [|a s IH]; simpl; [reflexivity|].
  destruct (isWhiteSpace a); simpl; [exact IH|discriminate].
Qed.

Lemma trimStart_snoc (s : jsstring) (c : N) :
  isWhiteSpace c = true ->
  trimStart (s ++ [c]) =
  if whitespaceOnly s then [] else trimStart s ++ [c].
Proof.
  intros Hc; induction s as [|a s IH]; simpl.
  - now rewrite Hc.
  - destruct (isWhiteSpace a); simpl; [exact IH|reflexivity].
Qed.

Lemma trim_snoc (s : jsstring) (c : N) :
  isWhiteSpace c = true -> trim (s ++ [c]) = trim s.
Proof.
  intros Hc; unfold trim, trimEnd.
  rewrite (trimStart_snoc s c Hc).
  destruct (whitespaceOnly s) eqn:Hs.
  - now rewrite (trimStart_whitespaceOnly s Hs).
  - rewrite rev_app_distr; simpl; now rewrite Hc.
Qed.

Lemma whitespaceOnly_app (s t : jsstring) :
  whitespaceOnly (s ++ t) = whitespaceOnly s && whitespaceOnly t.
Proof. apply forallb_app. Qed.

(** What [trim] returns is empty or starts and ends outside white space;
    only the end is needed here. *)
Lemma trim_not_whitespaceOnly (s : jsstring) :
  truthy (trim s) = true -> whitespaceOnly (trim s) = false.
Proof.
  unfold trim, trimEnd.
  destruct (trimStart (rev (trimStart s))) as [|c t] eqn:E; simpl;
    [discriminate|].
  intros _; rewrite whitespaceOnly_app; simpl.
  rewrite (trimStart_head _ _ _ E); simpl.
  now rewrite andb_false_r.
Qed.

Lemma trimmedNonEmpty_ok (parts : list jsstring) :
  fragmentsOk (trimmedNonEmpty parts).
Proof.
  unfold fragmentsOk, trimmedNonEmpty.
  induction parts as [|p parts IH]; simpl; [constructor|].
  destruct (truthy (trim p)) eqn:E; [|exact IH].
  constructor; [now apply trim_not_whitespaceOnly|exact IH].
Qed.

Lemma parsedNumbers_kept (parts : list jsstring) :
  parsedNumbers parts = keptNumbers parts.
Proof.
  unfold parsedNumbers.
  induction parts as [|p parts IH]; simpl; [reflexivity|].
  destruct (parseFloat (trim p)); simpl; now rewrite IH.
Qed.


Lemma keptNumbers_not_NaN (tokens : list jsstring) :
  Forall (fun v => isNaN v = false) (keptNumbers tokens).
Proof.
  induction tokens as [|t ts IH]; simpl; [constructor|].
  destruct (parseFloat (trim t)); [exact IH| |]; constructor; auto.
Qed.

End JsFacts.

(** ** Lines: splitting, joining, blank lines *)

Module LinesFacts.

Import JsFacts.

Lemma splitLines_cons_other (c : N) (s : jsstring) :
  (c =? LF) = false ->
  (match s with c' :: _ => (c =? CR) && (c' =? LF) | [] => false end) = false ->
  splitLines (c :: s) =
  match splitLines s with
  | line :: lines => (c :: line) :: lines
  | [] => [[c]]
  end.
Proof.
  intros Hc Hs; destruct s as [|c' s'].
  - simpl; now rewrite Hc.
  - change (splitLines (c :: c' :: s')) with
      (if c =? LF then [] :: splitLines (c' :: s')
       else if (c =? CR) && (c' =? LF) then [] :: splitLines s'
            else match splitLines (c' :: s') with
                 | line :: lines => (c :: line) :: lines
                 | [] => [[c]]
                 end).
    now rewrite Hc, Hs.
Qed.

Lemma splitLines_noLF (l : jsstring) :
  noLF l = true -> splitLines l = [l].
Proof.
  induction l as [|c l IH]; [reflexivity|].
  simpl noLF; intros H; apply andb_prop in H as [Hc Hl].
  apply negb_true_iff in Hc.
  rewrite splitLines_cons_other; [now rewrite (IH Hl)|exact Hc|].
  destruct l as [|c' l']; [reflexivity|].
  simpl in Hl; apply andb_prop in Hl as [Hc' _].
  apply negb_true_iff in Hc'; rewrite Hc'; apply andb_false_r.
Qed.

Lemma splitLines_app_LF (l rest : jsstring) :
  noLF l = true ->
  splitLines (l ++ LF :: rest) = chomp l :: splitLines rest.
Proof.
  induction l as [|c l IH]; [reflexivity|].
  simpl noLF; intros H; apply andb_prop in H as [Hc Hl].
  apply negb_true_iff in Hc.
  destruct l as [|c' l'].
  - change (([c] ++ LF :: rest)) with (c :: LF :: rest).
    change (splitLines (c :: LF :: rest)) with
      (if c =? LF then [] :: splitLines (LF :: rest)
       else if (c =? CR) && (LF =? LF) then [] :: splitLines rest
            else match splitLines (LF :: rest) with
                 | line :: lines => (c :: line) :: lines
                 | [] => [[c]]
                 end).
    rewrite Hc; simpl chomp.
    destruct (c =? CR); reflexivity.
  - change ((c :: c' :: l') ++ LF :: rest) with (c :: ((c' :: l') ++ LF :: rest)).
    rewrite splitLines_cons_other; [now rewrite (IH Hl)|exact Hc|].
    simpl in Hl |- *; apply andb_prop in Hl as [Hc' _].
    apply negb_true_iff in Hc'; rewrite Hc'; apply andb_false_r.
Qed.

(** Both steps of the recursion at once: the lines of [s] and of [c :: s]. *)
Lemma splitLines_lines_noLF_aux (s : jsstring) :
  Forall (fun l => noLF l = true) (splitLines s) /\
  forall c, Forall (fun l => noLF l = true) (splitLines (c :: s)).
Proof.
  induction s as [|c' s [IH1 IH2]].
  - split; [repeat constructor|].
    intros c; simpl; destruct (c =? LF) eqn:Hc; repeat constructor.
    simpl; now rewrite Hc.
  - split; [apply IH2|].
    intros c.
    change (splitLines (c :: c' :: s)) with
      (if c =? LF then [] :: splitLines (c' :: s)
       else if (c =? CR) && (c' =? LF) then [] :: splitLines s
            else match splitLines (c' :: s) with
                 | line :: lines => (c :: line) :: lines
                 | [] => [[c]]
                 end).
    destruct (c =? LF) eqn:Hc; [constructor; [reflexivity|apply IH2]|].
    destruct ((c =? CR) && (c' =? LF)); [constructor; [reflexivity|exact IH1]|].
    specialize (IH2 c').
    destruct (splitLines (c' :: s)) as [|line lines].
    + repeat constructor; simpl; now rewrite Hc.
    + inversion IH2; subst; constructor; [|assumption].
      simpl; rewrite Hc; simpl; assumption.
Qed.

Lemma splitLines_lines_noLF (s : jsstring) :
  Forall (fun l => noLF l = true) (splitLines s).
Proof. apply splitLines_lines_noLF_aux. Qed.

Lemma chomp_cases (l : jsstring) : chomp l = l \/ l = chomp l ++ [CR].
Proof.
  induction l as [|c l IH]; [now left|].
  destruct l as [|c' l'].
  - simpl; destruct (c =? CR) eqn:Hc; [right|now left].
    apply N.eqb_eq in Hc; now subst.
  - change (chomp (c :: c' :: l')) with (c :: chomp (c' :: l')).
    destruct IH as [-> | E]; [now left|right].
    rewrite <- app_comm_cons; now rewrite <- E.
Qed.

Lemma trim_chomp (l : jsstring) : trim (chomp l) = trim l.
Proof.
  destruct (chomp_cases l) as [-> | E]; [reflexivity|].
  rewrite E at 2; symmetry; now apply trim_snoc.
Qed.

Lemma chomp_snoc_CR (l : jsstring) : chomp (l ++ [CR]) = l.
Proof.
  induction l as [|c l IH]; [reflexivity|].
  destruct l as [|c' l']; [reflexivity|].
  change (chomp ((c :: c' :: l') ++ [CR]))
    with (c :: chomp ((c' :: l') ++ [CR])).
  now rewrite IH.
Qed.

Lemma noLF_snoc_CR (l : jsstring) : noLF l = true -> noLF (l ++ [CR]) = true.
Proof.
  unfold noLF; intros H; rewrite forallb_app, H; reflexivity.
Qed.

(** Splitting what [joinLines] wrote gives the lines back, up to a
    carriage return at the end of a line, which [trim] removes anyway. *)
Lemma trimmed_lines_joinLines (crlf : bool) (ls : list jsstring) :
  Forall (fun l => noLF l = true) ls ->
  ls <> [] ->
  map trim (splitLines (joinLines (lineBreak crlf) ls)) = map trim ls.
Proof.
  induction 1 as [|l ls Hl Hls IH]; [congruence|intros _].
  destruct ls as [|l2 ls'].
  - simpl; now rewrite (splitLines_noLF l Hl).
  - change (joinLines (lineBreak crlf) (l :: l2 :: ls')) with
      (l ++ lineBreak crlf ++ joinLines (lineBreak crlf) (l2 :: ls')).
    destruct crlf.
    + change (l ++ lineBreak true ++ ?j) with (l ++ [CR] ++ LF :: j).
      rewrite app_assoc, splitLines_app_LF by now apply noLF_snoc_CR.
      rewrite chomp_snoc_CR; cbn [map].
      rewrite IH by discriminate; reflexivity.
    + change (l ++ lineBreak false ++ ?j) with (l ++ LF :: j).
      rewrite splitLines_app_LF by assumption.
      cbn [map]; rewrite trim_chomp, IH by discriminate; reflexivity.
Qed.

Lemma filter_truthy_map_trim (ls : list jsstring) :
  filter truthy (map trim ls) =
  map trim (filter (fun l => negb (blank l)) ls).
Proof.
  induction ls as [|l ls IH]; [reflexivity|].
  simpl; unfold blank; rewrite negb_involutive.
  destruct (truthy (trim l)); simpl; now rewrite IH.
Qed.

Lemma filter_nonblank_idem (ls : list jsstring) :
  filter (fun l => negb (blank l)) (filter (fun l => negb (blank l)) ls) =
  filter (fun l => negb (blank l)) ls.
Proof.
  induction ls as [|l ls IH]; [reflexivity|].
  simpl; destruct (negb (blank l)) eqn:E; simpl; [rewrite E|]; now rewrite IH.
Qed.

Lemma Forall_filter {A : Type} (P : A -> Prop) (f : A -> bool) (l : list A) :
  Forall P l -> Forall P (filter f l).
Proof.
  induction 1; simpl; [constructor|].
  destruct (f x); [constructor|]; assumption.
Qed.

Lemma trimmedLines_removeBlankLines (crlf : bool) (raw : jsstring) :
  trimmedLines (removeBlankLines crlf raw) = trimmedLines raw.
Proof.
  unfold trimmedLines, removeBlankLines.
  rewrite (filter_truthy_map_trim (splitLines raw)).
  set (kept := filter (fun l => negb (blank l)) (splitLines raw)).
  assert (Hk : Forall (fun l => noLF l = true) kept)
    by apply Forall_filter, splitLines_lines_noLF.
  assert (Hi : filter (fun l => negb (blank l)) kept = kept)
    by apply filter_nonblank_idem.
  destruct kept as [|l ls] eqn:E; [reflexivity|].
  rewrite trimmed_lines_joinLines by (assumption || discriminate).
  rewrite <- Hi at 2; apply filter_truthy_map_trim.
Qed.

End LinesFacts.

(** ** Matching: what the patterns accept *)

Module RegexFacts.

Lemma stripPrefixCI_app (p w s : jsstring) :
  sameWordCI p w -> stripPrefixCI p (w ++ s) = Some s.
Proof.
  induction 1 as [|a c p w Hac _ IH]; [reflexivity|].
  simpl; now rewrite Hac.
Qed.

Lemma stripPrefixCI_inv (p s r : jsstring) :
  stripPrefixCI p s = Some r -> exists w, s = w ++ r /\ sameWordCI p w.
Proof.
  revert s; induction p as [|a p IH]; intros s.
  - simpl; intros E; injection E as ->; exists []; split; [reflexivity|constructor].
  - destruct s as [|c s]; simpl; [discriminate|].
    destruct (eqCI a c) eqn:Hac; [|discriminate].
    intros E; destruct (IH _ E) as (w & -> & Hw).
    exists (c :: w); split; [reflexivity|now constructor].
Qed.

Lemma sameWordCI_canonical (p w : jsstring) :
  sameWordCI p w -> map canonicalize p = map canonicalize w.
Proof.
  induction 1 as [|a c p w Hac _ IH]; [reflexivity|].
  simpl; apply N.eqb_eq in Hac; now rewrite Hac, IH.
Qed.

Lemma sameWordCI_refl (p : jsstring) : sameWordCI p p.
Proof.
  induction p; constructor; [apply N.eqb_refl|assumption].
Qed.

Lemma sameWordCI_length (p w : jsstring) :
  sameWordCI p w -> List.length p = List.length w.
Proof. induction 1; simpl; congruence. Qed.

(** Two words of the same length in front of the same string: the second
    pattern strips the first word only if it spells the same word. *)
Lemma stripPrefixCI_other_word (p q w s : jsstring) :
  sameWordCI p w ->
  List.length q = List.length p ->
  map canonicalize q <> map canonicalize p ->
  stripPrefixCI q (w ++ s) = None.
Proof.
  intros Hp; revert q; induction Hp as [|a c p w Hac _ IH]; intros q Hlen Hne.
  - destruct q; [now elim Hne|discriminate].
  - destruct q as [|b q]; [discriminate|].
    simpl; destruct (eqCI b c) eqn:Hbc; [|reflexivity].
    apply IH; [simpl in Hlen; congruence|].
    intros E; apply Hne; simpl; rewrite E; f_equal.
    apply N.eqb_eq in Hac, Hbc; congruence.
Qed.

Lemma plusFrom_some {A : Type} (cls : N -> bool) (ws s : jsstring)
    (k : jsstring -> option A) :
  ws <> [] -> forallb cls ws = true -> k s <> None ->
  plusFrom cls (ws ++ s) k <> None.
Proof.
  intros Hne Hall Hk; induction ws as [|c ws IH]; [congruence|].
  simpl in Hall; apply andb_prop in Hall as [Hc Hws].
  simpl; rewrite Hc.
  destruct ws as [|c' ws'].
  - simpl app; destruct (plusFrom cls s k); [discriminate|exact Hk].
  - assert (E : plusFrom cls ((c' :: ws') ++ s) k <> None)
      by (apply IH; [discriminate|exact Hws]).
    destruct (plusFrom cls ((c' :: ws') ++ s) k); [discriminate|now elim E].
Qed.

Lemma rmatch_head {A : Type} (r : regex) :
  headed r = true ->
  forall (s : jsstring) (k : jsstring -> option A) (x : A),
  rmatch r s k = Some x ->
  exists c s', s = c :: s' /\ In (canonicalize c) (heads r).
Proof.
  induction r as [p|r1 IH1 r2 IH2|r1 IH1 r2 _|r1 _|cls]; simpl;
    try discriminate.
  - destruct p as [|a p]; [discriminate|intros _ s k x].
    destruct s as [|c s]; simpl; [discriminate|].
    destruct (eqCI a c) eqn:Hac; [|discriminate].
    intros _; exists c, s; split; [reflexivity|left].
    now apply N.eqb_eq in Hac.
  - intros H s k x; apply andb_prop in H as [H1 H2].
    destruct (rmatch r1 s k) eqn:E1.
    + intros _; destruct (IH1 H1 _ _ _ E1) as (c & s' & -> & Hin).
      exists c, s'; split; [reflexivity|apply in_or_app; now left].
    + intros E2; destruct (IH2 H2 _ _ _ E2) as (c & s' & -> & Hin).
      exists c, s'; split; [reflexivity|apply in_or_app; now right].
  - intros H s k x E; exact (IH1 H _ _ _ E).
Qed.

Lemma test_head (r : regex) (s : jsstring) :
  headed r = true -> test r s = true ->
  exists c s', s = c :: s' /\ In (canonicalize c) (heads r).
Proof.
  unfold test, exec; intros H.
  destruct (rmatch r s (fun rest => Some rest)) eqn:E; [|discriminate].
  intros _; exact (rmatch_head r H _ _ _ E).
Qed.

Lemma test_false_by_head (r : regex) (c : N) (s : jsstring) :
  headed r = true -> ~ In (canonicalize c) (heads r) -> test r (c :: s) = false.
Proof.
  intros H Hn; destruct (test r (c :: s)) eqn:E; [|reflexivity].
  destruct (test_head r _ H E) as (c' & s' & Hcs & Hin).
  injection Hcs as <- _; contradiction.
Qed.

(** The slide marker: the word, white space, digits. *)
Lemma reSlide_matches (w ws ds rest : jsstring) :
  sameWordCI (str "Diapositiva") w ->
  ws <> [] -> forallb isWhiteSpace ws = true ->
  ds <> [] -> forallb isDigit ds = true ->
  test reSlide (w ++ ws ++ ds ++ rest) = true.
Proof.
  intros Hw Hws1 Hws2 Hds1 Hds2.
  unfold test, exec, reSlide; cbn [rmatch].
  rewrite (stripPrefixCI_app _ _ _ Hw).
  match goal with |- match ?m with _ => _ end = _ => destruct m eqn:E end;
    [reflexivity|exfalso].
  revert E; apply plusFrom_some; [assumption..|].
  apply plusFrom_some; [assumption..|discriminate].
Qed.

Lemma reSlide_head (s : jsstring) :
  test reSlide s = true ->
  exists c1 c2 s', s = c1 :: c2 :: s' /\
    canonicalize c1 = 68 /\ canonicalize c2 = 73.
Proof.
  unfold test, exec, reSlide; cbn [rmatch].
  destruct (stripPrefixCI (str "Diapositiva") s) as [r|] eqn:E; [|discriminate].
  intros _; apply stripPrefixCI_inv in E as (w & -> & Hw).
  apply sameWordCI_canonical in Hw.
  change (map canonicalize (str "Diapositiva"))
    with (68 :: 73 :: map canonicalize (str "apositiva")) in Hw.
  destruct w as [|c1 [|c2 w]]; try discriminate.
  simpl map in Hw; injection Hw as H1 H2 _.
  exists c1, c2, (w ++ r); repeat split; congruence.
Qed.

Lemma not_reSlide_by_head (c : N) (s : jsstring) :
  canonicalize c <> 68 -> test reSlide (c :: s) = false.
Proof.
  intros H; destruct (test reSlide (c :: s)) eqn:E; [|reflexivity].
  apply reSlide_head in E as (c1 & c2 & s' & Hcs & H1 & _).
  injection Hcs as <- _; contradiction.
Qed.

Lemma not_reSlide_by_second (c1 c2 : N) (s : jsstring) :
  canonicalize c2 <> 73 -> test reSlide (c1 :: c2 :: s) = false.
Proof.
  intros H; destruct (test reSlide (c1 :: c2 :: s)) eqn:E; [|reflexivity].
  apply reSlide_head in E as (d1 & d2 & s' & Hcs & _ & H2).
  injection Hcs as _ <- _; contradiction.
Qed.

(** A keyword written as one run of pattern characters: what comes after
    it is what [replace] leaves. *)
Lemma Chars_inv (p s : jsstring) :
  test (Chars p) s = true ->
  exists w, s = w ++ replace (Chars p) s /\ sameWordCI p w.
Proof.
  unfold test, replace, exec; cbn [rmatch].
  destruct (stripPrefixCI p s) as [r|] eqn:E; [|discriminate].
  intros _; now apply stripPrefixCI_inv.
Qed.

Lemma Chars_head2 (a b : N) (p s : jsstring) :
  test (Chars (a :: b :: p)) s = true ->
  exists c1 c2 s', s = c1 :: c2 :: s' /\
    canonicalize c1 = canonicalize a /\ canonicalize c2 = canonicalize b.
Proof.
  intros H; apply Chars_inv in H as (w & E & Hw).
  inversion Hw as [|a' c1 p' w' H1 Hw']; subst.
  inversion Hw' as [|b' c2 p'' w'' H2 _]; subst.
  apply N.eqb_eq in H1, H2.
  rewrite E; exists c1, c2, (w'' ++ replace (Chars (a :: b :: p)) s).
  repeat split; congruence.
Qed.

End RegexFacts.

(** ** Facts shared by the copies *)

Module DeckFacts.

Lemma emptySlide_ok : slideOk emptySlide.
Proof. repeat split; constructor. Qed.

Lemma fragmentsOk_app (l1 l2 : list jsstring) :
  fragmentsOk l1 -> fragmentsOk l2 -> fragmentsOk (l1 ++ l2).
Proof. intros H1 H2; apply Forall_app; now split. Qed.

Lemma startNewSlide_ok (st : State) : stateOk st -> stateOk (startNewSlide st).
Proof.
  intros [Hs Hc]; unfold startNewSlide; split; simpl; [|apply emptySlide_ok].
  destruct (current st); [|exact Hs].
  apply Forall_app; split; [exact Hs|now constructor].
Qed.

Lemma finish_ok (st : State) : stateOk st -> Forall slideOk (finish st).
Proof.
  intros [Hs Hc]; unfold finish; destruct (current st); [|exact Hs].
  apply Forall_app; split; [exact Hs|now constructor].
Qed.

Lemma pushContent_nil (c : Slide) : pushContent [] c = c.
Proof. destruct c; unfold pushContent; simpl; now rewrite app_nil_r. Qed.

Lemma pushContent_cons (t : jsstring) (ts : list jsstring) (c : Slide) :
  pushContent ts (pushContent [t] c) = pushContent (t :: ts) c.
Proof. unfold pushContent; simpl; now rewrite <- app_assoc. Qed.

Lemma forOf_app {S X : Type} (body : S -> X -> result S) (l1 l2 : list X)
    (st : S) :
  forOf body (l1 ++ l2) st = bind (forOf body l1 st) (forOf body l2).
Proof.
  revert st; induction l1 as [|x l1 IH]; intros st; [reflexivity|].
  simpl; destruct (body st x); simpl; [apply IH|reflexivity].
Qed.

Lemma truthy_length (l : jsstring) : (0 <? List.length l)%nat = truthy l.
Proof. destruct l; reflexivity. Qed.

End DeckFacts.

(** ** The parser of [src/script.js], step by step *)

Module ScriptJsFacts.

Import ScriptJs ScriptJsSpec JsFacts RegexFacts LinesFacts DeckFacts.

Lemma ensureCurrent_eq (st : State) :
  ensureCurrent st = mkState (slides st) (Some (cursor st)).
Proof.
  unfold ensureCurrent, cursor, startNewSlide.
  destruct st as [sl [c|]]; reflexivity.
Qed.

Lemma pushEach_ok (ts : list jsstring) (sl : list Slide) (c : Slide) :
  pushEach ts (mkState sl (Some c)) = Ok (mkState sl (Some (pushContent ts c))).
Proof.
  unfold pushEach; revert c; induction ts as [|t ts IH]; intros c.
  - simpl; now rewrite pushContent_nil.
  - simpl; rewrite IH; now rewrite pushContent_cons.
Qed.

(** No line throws: at the first use of [current] it has been set. *)
Lemma processLine_step (st : State) (rawLine : jsstring) :
  processLine st rawLine = Ok (step st rawLine).
Proof.
  unfold processLine, step, stepLine, update.
  destruct (truthy (trim rawLine)); [simpl negb; cbv iota|reflexivity].
  destruct (test reSlide (trim rawLine)); [reflexivity|].
  rewrite ensureCurrent_eq.
  repeat match goal with
  | |- (if ?b then _ else _) = _ => destruct b
  end; try reflexivity; apply pushEach_ok.
Qed.

Lemma forOf_processLine (ls : list jsstring) (st : State) :
  forOf processLine ls st = Ok (fold_left step ls st).
Proof.
  revert st; induction ls as [|l ls IH]; intros st; [reflexivity|].
  simpl; rewrite processLine_step; simpl; apply IH.
Qed.

Lemma fold_step_trimmed (ls : list jsstring) (st : State) :
  fold_left step ls st = fold_left stepLine (filter truthy (map trim ls)) st.
Proof.
  revert st; induction ls as [|l ls IH]; intros st; [reflexivity|].
  simpl; unfold step at 2; destruct (truthy (trim l)); simpl; apply IH.
Qed.

Lemma parseScript_eq (raw : jsstring) :
  parseScript raw = Ok (finish (fold_left stepLine (trimmedLines raw) initial)).
Proof.
  unfold parseScript, trimmedLines.
  now rewrite forOf_processLine, fold_step_trimmed.
Qed.

(** A Data line is taken by the Data branch: none of the patterns that
    are tried before it matches a line that starts with the keyword. *)
Lemma data_line_branch (line : jsstring) :
  test reData line = true ->
  truthy line = true /\ test reSlide line = false /\
  test reTitle line = false /\ test reContent line = false.
Proof.
  intros H.
  change reData with (Chars (68 :: 97 :: str "tos:")) in H.
  apply Chars_head2 in H as (c1 & c2 & s' & -> & H1 & H2).
  change (canonicalize 68) with 68 in H1.
  change (canonicalize 97) with 65 in H2.
  split; [reflexivity|split; [|split]].
  - apply not_reSlide_by_second; rewrite H2; discriminate.
  - apply test_false_by_head; [reflexivity|].
    rewrite H1; simpl; intros [E|[E|[]]]; discriminate.
  - apply test_false_by_head; [reflexivity|].
    rewrite H1; simpl; intros [E|[E|[]]]; discriminate.
Qed.

Lemma update_data (line : jsstring) (c : Slide) :
  test reData line = true ->
  update line c = setGraph (dataGraph (trim (replace reData line))) c.
Proof.
  intros H; destruct (data_line_branch line H) as (_ & _ & Ht & Hc).
  unfold update; now rewrite Ht, Hc, H.
Qed.

Lemma update_graph_other (line : jsstring) (c : Slide) :
  test reData line = false -> graph (update line c) = graph c.
Proof.
  intros H; unfold update; rewrite H.
  repeat match goal with
  | |- graph (if ?b then _ else _) = _ => destruct b
  end; reflexivity.
Qed.

Lemma update_content (line : jsstring) (c : Slide) :
  content (update line c) = content c ++ contentOf line.
Proof.
  unfold update, contentOf.
  destruct (test reTitle line); [simpl; now rewrite app_nil_r|].
  destruct (test reContent line).
  - destruct (truthy (trim (replace reContent line))) eqn:E; [reflexivity|].
    destruct (trim (replace reContent line)); [|discriminate].
    simpl; now rewrite app_nil_r.
  - destruct (test reData line); [simpl; now rewrite app_nil_r|].
    destruct (test reDescription line); [simpl; now rewrite app_nil_r|].
    destruct (test reAttachment line); [|reflexivity].
    simpl orb; cbv iota.
    destruct (truthy _); simpl; now rewrite app_nil_r.
Qed.

Lemma contentOf_unrecognized (line : jsstring) :
  unrecognized line = true ->
  contentOf line = trimmedNonEmpty (split semicolon line).
Proof.
  unfold unrecognized, contentOf; intros H.
  apply negb_true_iff in H.
  repeat (apply orb_false_iff in H as [H ?]).
  repeat match goal with E : test _ line = false |- _ => rewrite E; clear E end.
  reflexivity.
Qed.

(** The sections of a Data line. *)
Lemma section_labels_ok (g : Graph) (sec : jsstring) :
  fragmentsOk (labels g) -> fragmentsOk (labels (section g sec)).
Proof.
  intros H; unfold section.
  destruct (negb (truthy (trim sec))); [exact H|].
  destruct (test reLabels (trim sec)); [apply trimmedNonEmpty_ok|].
  destruct (test reValues (trim sec)); exact H.
Qed.

Lemma dataGraph_labels_ok (rest : jsstring) :
  fragmentsOk (labels (dataGraph rest)).
Proof.
  unfold dataGraph.
  assert (H : fragmentsOk (labels emptyGraph)) by constructor.
  revert H; generalize emptyGraph.
  induction (split semicolon rest) as [|sec secs IH]; intros g H; [exact H|].
  simpl; apply IH; now apply section_labels_ok.
Qed.




Lemma section_noSubKey (g : Graph) (sec : jsstring) :
  noSubKey sec = true -> section g sec = g.
Proof.
  unfold noSubKey, section; intros H; apply andb_prop in H as [H1 H2].
  apply negb_true_iff in H1, H2; rewrite H1, H2.
  destruct (negb (truthy (trim sec))); reflexivity.
Qed.

Lemma dataGraph_noSubKey (rest : jsstring) :
  forallb noSubKey (split semicolon rest) = true ->
  dataGraph rest = emptyGraph.
Proof.
  unfold dataGraph; generalize emptyGraph.
  induction (split semicolon rest) as [|sec secs IH]; intros g H;
    [reflexivity|].
  simpl in H; apply andb_prop in H as [H1 H2].
  simpl; rewrite (section_noSubKey g sec H1); now apply IH.
Qed.

Lemma update_ok (line : jsstring) (c : Slide) :
  slideOk c -> slideOk (update line c).
Proof.
  intros (Hc & Ha & Hg); unfold update.
  repeat match goal with
  | |- slideOk (if ?b then _ else _) => destruct b
  end; unfold slideOk; simpl; repeat split; try assumption;
  try (apply fragmentsOk_app; [assumption|apply trimmedNonEmpty_ok]).
  apply dataGraph_labels_ok.
Qed.

Lemma stepLine_ok (st : State) (line : jsstring) :
  stateOk st -> stateOk (stepLine st line).
Proof.
  intros H; unfold stepLine.
  destruct (test reSlide line); [now apply startNewSlide_ok|].
  destruct H as [Hs Hc]; split; simpl; [exact Hs|].
  apply update_ok; unfold cursor.
  destruct (current st); [exact Hc|apply emptySlide_ok].
Qed.

Lemma fold_stepLine_ok (ls : list jsstring) (st : State) :
  stateOk st -> stateOk (fold_left stepLine ls st).
Proof.
  revert st; induction ls as [|l ls IH]; intros st H; [exact H|].
  simpl; apply IH; now apply stepLine_ok.
Qed.

End ScriptJsFacts.

(** ** The older copies, step by step *)

Module LegacyFacts.

Import Legacy JsFacts RegexFacts LinesFacts DeckFacts.

Section Copy.

Variable reTitle : regex.

(** Both title patterns only match a line that starts with the letter T. *)
Hypothesis reTitle_T :
  forall s, test reTitle s = true ->
  exists c s', s = c :: s' /\ canonicalize c = 84.

Local Abbreviation update := (LegacySpec.update reTitle).
Local Abbreviation stepLine := (LegacySpec.stepLine reTitle).
Local Abbreviation isDataLine := LegacySpec.isDataLine.
Local Abbreviation isValuesSection := LegacySpec.isValuesSection.
Local Abbreviation valuesText := LegacySpec.valuesText.
Local Abbreviation noSubKey := LegacySpec.noSubKey.

Lemma lines_trimmedLines (raw : jsstring) :
  lines raw = trimmedLines raw.
Proof.
  unfold lines, trimmedLines.
  apply filter_ext; intros l; apply truthy_length.
Qed.

(** With a current slide no line throws. *)
Lemma processLine_current (st : State) (c : Slide) (line : jsstring) :
  current st = Some c ->
  processLine reTitle st line = Ok (stepLine st line).
Proof.
  intros Hc; unfold processLine, stepLine, update, onCurrent.
  rewrite Hc; simpl option_map.
  repeat match goal with
  | |- (if ?b then _ else _) = _ => destruct b
  end; reflexivity.
Qed.

Lemma stepLine_current (st : State) (line : jsstring) :
  current st <> None -> current (stepLine st line) <> None.
Proof.
  unfold stepLine; destruct (test reSlide line); simpl; [discriminate|].
  destruct (current st); [discriminate|congruence].
Qed.

Lemma forOf_current (ls : list jsstring) (st : State) :
  current st <> None ->
  forOf (processLine reTitle) ls st = Ok (fold_left stepLine ls st).
Proof.
  revert st; induction ls as [|l ls IH]; intros st H; [reflexivity|].
  destruct (current st) as [c|] eqn:Hc; [|congruence].
  simpl; rewrite (processLine_current st c l Hc); simpl.
  apply IH, stepLine_current; congruence.
Qed.

Lemma fold_stepLine_current (ls : list jsstring) (st : State) :
  current st <> None -> current (fold_left stepLine ls st) <> None.
Proof.
  revert st; induction ls as [|l ls IH]; intros st H; [exact H|].
  simpl; now apply IH, stepLine_current.
Qed.

(** A Data line is taken by the Data branch. *)
Lemma legacy_data_line_branch (line : jsstring) :
  isDataLine line = true ->
  test reSlide line = false /\ test reTitle line = false /\
  test reContent line = false.
Proof.
  unfold isDataLine; intros H.
  assert (Hhead : exists c1 c2 s', line = c1 :: c2 :: s' /\
            ((canonicalize c1 = 68 /\ canonicalize c2 = 65) \/
             canonicalize c1 = 71)).
  { apply orb_prop in H as [H|H]; [apply orb_prop in H as [H|H]|].
    - change reDatos with (Chars (68 :: 97 :: str "tos:")) in H.
      apply Chars_head2 in H as (c1 & c2 & s' & -> & H1 & H2).
      exists c1, c2, s'; split; [reflexivity|left; now split].
    - change reGraficaAcute with (Chars (71 :: 114 :: str "áfica:")) in H.
      apply Chars_head2 in H as (c1 & c2 & s' & -> & H1 & H2).
      exists c1, c2, s'; split; [reflexivity|now right].
    - change reGrafica with (Chars (71 :: 114 :: str "afica:")) in H.
      apply Chars_head2 in H as (c1 & c2 & s' & -> & H1 & H2).
      exists c1, c2, s'; split; [reflexivity|now right]. }
  destruct Hhead as (c1 & c2 & s' & -> & Hc).
  split; [|split].
  - destruct Hc as [[_ H2]|H1].
    + apply not_reSlide_by_second; rewrite H2; discriminate.
    + apply not_reSlide_by_head; rewrite H1; discriminate.
  - destruct (test reTitle (c1 :: c2 :: s')) eqn:E; [|reflexivity].
    apply reTitle_T in E as (c & s'' & Hcs & H84).
    injection Hcs as <- _.
    destruct Hc as [[H1 _]|H1]; rewrite H1 in H84; discriminate.
  - apply test_false_by_head; [reflexivity|].
    destruct Hc as [[H1 _]|H1]; rewrite H1; simpl;
      intros [E|[E|[]]]; discriminate.
Qed.

Lemma legacy_update_data (line : jsstring) (c : Slide) :
  isDataLine line = true ->
  update line c = setGraph (dataGraph (trim (replace reDataPrefix line))) c.
Proof.
  intros H; destruct (legacy_data_line_branch line H) as (_ & Ht & Hc).
  unfold update; rewrite Ht, Hc.
  unfold isDataLine in H; now rewrite H.
Qed.

Lemma legacy_update_graph_other (line : jsstring) (c : Slide) :
  isDataLine line = false -> graph (update line c) = graph c.
Proof.
  unfold isDataLine; intros H; unfold update; rewrite H.
  repeat match goal with
  | |- graph (if ?b then _ else _) = _ => destruct b
  end; reflexivity.
Qed.

(** The sections of a Data line. *)
Lemma legacy_section_labels_ok (g : Graph) (sec : jsstring) :
  fragmentsOk (labels g) -> fragmentsOk (labels (section g sec)).
Proof.
  intros H; unfold section.
  destruct (test reLabelsTest sec); [apply trimmedNonEmpty_ok|].
  destruct (test reValuesTest sec); exact H.
Qed.

Lemma legacy_dataGraph_labels_ok (rest : jsstring) :
  fragmentsOk (labels (dataGraph rest)).
Proof.
  unfold dataGraph.
  assert (H : fragmentsOk (labels emptyGraph)) by constructor.
  revert H; generalize emptyGraph.
  induction (map trim (split semicolon rest)) as [|sec secs IH]; intros g H;
    [exact H|].
  simpl; apply IH; now apply legacy_section_labels_ok.
Qed.




Lemma legacy_section_noSubKey (g : Graph) (sec : jsstring) :
  noSubKey sec = true -> section g sec = g.
Proof.
  unfold noSubKey, section; intros H; apply andb_prop in H as [H1 H2].
  apply negb_true_iff in H1, H2; now rewrite H1, H2.
Qed.

Lemma legacy_dataGraph_noSubKey (rest : jsstring) :
  forallb noSubKey (map trim (split semicolon rest)) = true ->
  dataGraph rest = emptyGraph.
Proof.
  unfold dataGraph; generalize emptyGraph.
  induction (map trim (split semicolon rest)) as [|sec secs IH]; intros g H;
    [reflexivity|].
  simpl in H; apply andb_prop in H as [H1 H2].
  simpl; rewrite (legacy_section_noSubKey g sec H1); now apply IH.
Qed.

(** The invariant. *)
Lemma legacy_update_ok (line : jsstring) (c : Slide) :
  slideOk c -> slideOk (update line c).
Proof.
  intros (Hc & Ha & Hg); unfold update.
  repeat match goal with
  | |- slideOk (if ?b then _ else _) => destruct b
  end; unfold slideOk; simpl; repeat split; try assumption;
  try (apply fragmentsOk_app; [assumption|apply trimmedNonEmpty_ok]).
  apply legacy_dataGraph_labels_ok.
Qed.

Lemma processLine_ok (st st' : State) (line : jsstring) :
  processLine reTitle st line = Ok st' -> stateOk st -> stateOk st'.
Proof.
  destruct (current st) as [c|] eqn:Hc.
  - rewrite (processLine_current st c line Hc).
    intros E; injection E as <-; unfold stepLine.
    destruct (test reSlide line); [apply startNewSlide_ok|].
    intros [Hs Hok]; split; simpl; [exact Hs|].
    rewrite Hc in Hok |- *; simpl; now apply legacy_update_ok.
  - unfold processLine, onCurrent; rewrite Hc.
    destruct (test reSlide line);
      [intros E; injection E as <-; apply startNewSlide_ok|].
    repeat match goal with
    | |- (if ?b then _ else _) = _ -> _ => destruct b
    end; try discriminate.
    intros E; injection E as <-; trivial.
Qed.

Lemma forOf_ok (ls : list jsstring) (st st' : State) :
  forOf (processLine reTitle) ls st = Ok st' -> stateOk st -> stateOk st'.
Proof.
  revert st; induction ls as [|l ls IH]; intros st.
  - simpl; intros E; injection E as <-; trivial.
  - simpl; destruct (processLine reTitle st l) as [st1|e] eqn:E1; simpl;
      [|discriminate].
    intros E H; apply (IH st1 E); exact (processLine_ok _ _ _ E1 H).
Qed.

Lemma parseScript_ok (raw : jsstring) (sl : list Slide) :
  parseScript reTitle raw = Ok sl -> Forall slideOk sl.
Proof.
  unfold parseScript.
  destruct (forOf (processLine reTitle) (lines raw) initial)
    as [st|e] eqn:E; simpl; [|discriminate].
  intros E'; injection E' as <-; apply finish_ok.
  apply (forOf_ok _ _ _ E); split; constructor.
Qed.

Lemma parseScript_removeBlankLines (crlf : bool) (raw : jsstring) :
  parseScript reTitle (removeBlankLines crlf raw) = parseScript reTitle raw.
Proof.
  unfold parseScript.
  now rewrite !lines_trimmedLines, trimmedLines_removeBlankLines.
Qed.

End Copy.

Lemma reTitle_T_000 (s : jsstring) :
  test Part000.reTitle s = true ->
  exists c s', s = c :: s' /\ canonicalize c = 84.
Proof.
  intros H; apply test_head in H as (c & s' & -> & Hin); [|reflexivity].
  exists c, s'; split; [reflexivity|].
  simpl in Hin; destruct Hin as [E|[E|[]]]; now rewrite <- E.
Qed.

Lemma reTitle_T_001 (s : jsstring) :
  test Part001.reTitle s = true ->
  exists c s', s = c :: s' /\ canonicalize c = 84.
Proof.
  intros H; apply test_head in H as (c & s' & -> & Hin); [|reflexivity].
  exists c, s'; split; [reflexivity|].
  simpl in Hin; destruct Hin as [E|[]]; now rewrite <- E.
Qed.

End LegacyFacts.

(** ** The parser on small scripts *)

Module Examples.

Local Open Scope string_scope.

Example str_Titulo :
  str "Título:" = [84; 237; 116; 117; 108; 111; 58].
Proof. reflexivity. Qed.

Example script_two_lines :
  script ["Diapositiva 1"; "a"] = (str "Diapositiva 1" ++ [LF] ++ str "a")%list.
Proof. reflexivity. Qed.

(** The script of section 8 of the specification, on [src/script.js]. *)
Example two_slides :
  ScriptJs.parseScript
    (script ["Diapositiva 1"; "Título: A"; "Contenido: x; y"; "";
             "Diapositiva 2"; "Título: B"])
  = Ok [mkSlide (str "A") [str "x"; str "y"] None [] [];
        mkSlide (str "B") [] None [] []].
Proof. vm_compute; reflexivity. Qed.

Example two_slides_part000 :
  Part000.parseScript
    (script ["Diapositiva 1"; "Título: A"; "Contenido: x; y"; "";
             "Diapositiva 2"; "Título: B"])
  = Ok [mkSlide (str "A") [str "x"; str "y"] None [] [];
        mkSlide (str "B") [] None [] []].
Proof. vm_compute; reflexivity. Qed.

(** Attachment lines accumulate. *)
Example attachments_accumulate :
  ScriptJs.parseScript
    (script ["Diapositiva 1"; "Adjunto: a.pdf, b.png"; "Adjunto: c.txt"])
  = Ok [mkSlide [] [] None [] [str "a.pdf"; str "b.png"; str "c.txt"]].
Proof. vm_compute; reflexivity. Qed.

(** Carriage returns: before a line feed they end the line, elsewhere
    they stay in it (and [trim] takes them off the ends). *)
Example crlf_lines :
  splitLines (str "a" ++ [CR; LF] ++ str "b" ++ [CR] ++ str "c" ++ [LF])%list
  = [str "a"; (str "b" ++ [CR] ++ str "c")%list; []].
Proof. reflexivity. Qed.

Example parseFloat_samples :
  map parseFloat
    [str "1"; str "foo"; str " 3.5e2x"; str "-.5"; str "."; str "5.";
     str "-Infinity"; str "1e"; str ""]
  = [Dec false 1 0; NaN; Dec false 35 1; Dec true 5 (-1); NaN; Dec false 5 0;
     Infinity true; Dec false 1 0; NaN].
Proof. vm_compute; reflexivity. Qed.

(** A second Data line does not merge with the first. *)
Example second_data_line_replaces :
  ScriptJs.parseScript
    (script ["Diapositiva 1"; "Datos: Labels: a, b"; "Datos: Valores: 1"])
  = Ok [mkSlide [] [] (Some (mkGraph [] [Dec false 1 0])) [] []].
Proof. vm_compute; reflexivity. Qed.

(** The specification writes the keywords in English (its Chart keyword
    "in two diacritic variants" is [Gráfica:] and [Grafica:]); the sources
    know the Spanish words only, and a line that starts with an English
    keyword is a line like any other. *)
Example english_keyword_is_plain_text :
  ScriptJs.parseScript (script ["Diapositiva 1"; "Title: A"])
  = Ok [mkSlide [] [str "Title: A"] None [] []].
Proof. vm_compute; reflexivity. Qed.

(** The upper-case accented letter is the accented letter. *)
Example title_upper_case_accent :
  ScriptJs.parseScript (script ["Diapositiva 1"; "TÍTULO: x"])
  = Ok [mkSlide (str "x") [] None [] []].
Proof. vm_compute; reflexivity. Qed.

End Examples.

(** ** The claims of the specification *)

Import JsFacts RegexFacts LinesFacts DeckFacts.

Local Open Scope string_scope.

(** *** Exceptions *)

(** [src/script.js] never throws: every branch that uses [current] first
    makes sure there is a current slide. *)
Lemma script_js_never_throws (raw : jsstring) :
  exists sl, ScriptJs.parseScript raw = Ok sl.
Proof. rewrite ScriptJsFacts.parseScript_eq; eexists; reflexivity. Qed.

(** An input with no line left after trimming gives no slide. *)
Lemma script_js_blank_input (raw : jsstring) :
  trimmedLines raw = [] -> ScriptJs.parseScript raw = Ok [].
Proof.
  intros H; rewrite ScriptJsFacts.parseScript_eq, H; reflexivity.
Qed.

Lemma script_js_stepLine_current (st : State) (line : jsstring) :
  current (ScriptJsSpec.stepLine st line) <> None.
Proof.
  unfold ScriptJsSpec.stepLine; destruct (test reSlide line); discriminate.
Qed.

Lemma script_js_fold_current (ls : list jsstring) (st : State) :
  current st <> None ->
  current (fold_left ScriptJsSpec.stepLine ls st) <> None.
Proof.
  revert st; induction ls as [|l ls IH]; intros st H; [exact H|].
  simpl; apply IH, script_js_stepLine_current.
Qed.

(** The result is empty only when the input is blank. *)
Lemma script_js_empty_result (raw : jsstring) :
  ScriptJs.parseScript raw = Ok [] <-> trimmedLines raw = [].
Proof.
  split; [|apply script_js_blank_input].
  rewrite ScriptJsFacts.parseScript_eq.
  destruct (trimmedLines raw) as [|l ls]; [reflexivity|].
  simpl fold_left; intros E; exfalso.
  pose proof (script_js_fold_current ls _
                (script_js_stepLine_current initial l)) as Hc.
  unfold finish in E.
  destruct (current (fold_left ScriptJsSpec.stepLine ls
                       (ScriptJsSpec.stepLine initial l)));
    [|congruence].
  injection E as E; destruct (slides _); discriminate.
Qed.

(** C1.  The claim: [parseScript] never throws, and in particular a
    Title, Content, Data, Description or Attachment line that comes before
    any slide marker does not make it fail.  [src/script.js] never throws
    ([script_js_never_throws]) and returns no slide only for a blank input
    ([script_js_empty_result]).  The older front-end script
    ([src/unnamed/part_000], and the test script with it) guards its
    fallback branch with [else if (current)] but not its keyword branches:
    each of the five keyword lines, as the first line of the input,
    assigns to a field of [null] and throws a [TypeError]. *)
Theorem keyword_before_first_marker_throws :
  Part000.parseScript (str "Título: x") = Throw TypeError /\
  Part000.parseScript (str "Contenido: x") = Throw TypeError /\
  Part000.parseScript (str "Datos: Labels: a; Valores: 1") = Throw TypeError /\
  Part000.parseScript (str "Descripción: x") = Throw TypeError /\
  Part000.parseScript (str "Adjunto: x") = Throw TypeError /\
  Part001.parseScript (str "Título: x") = Throw TypeError /\
  ScriptJs.parseScript (str "Título: x") = Ok [mkSlide (str "x") [] None [] []].
Proof. repeat split; vm_compute; reflexivity. Qed.

(** *** Blank lines *)

(** The three copies only see the trimmed, non-empty lines of the input:
    two inputs with the same such lines parse alike. *)
Lemma parse_depends_on_trimmed_lines (raw raw' : jsstring) :
  trimmedLines raw = trimmedLines raw' ->
  ScriptJs.parseScript raw = ScriptJs.parseScript raw' /\
  Part000.parseScript raw = Part000.parseScript raw' /\
  Part001.parseScript raw = Part001.parseScript raw'.
Proof.
  intros E; split; [|split].
  - now rewrite !ScriptJsFacts.parseScript_eq, E.
  - unfold Part000.parseScript, Legacy.parseScript.
    now rewrite !LegacyFacts.lines_trimmedLines, E.
  - unfold Part001.parseScript, Legacy.parseScript.
    now rewrite !LegacyFacts.lines_trimmedLines, E.
Qed.

(** C7.  Blank-line invariance: the input with its blank lines removed
    (the lines that are empty after trimming; the remaining lines joined
    by a line feed, or by a carriage return and a line feed) parses to the
    same result, in each of the three copies. *)
Theorem blank_lines_are_invisible (crlf : bool) (raw : jsstring) :
  ScriptJs.parseScript (removeBlankLines crlf raw) = ScriptJs.parseScript raw /\
  Part000.parseScript (removeBlankLines crlf raw) = Part000.parseScript raw /\
  Part001.parseScript (removeBlankLines crlf raw) = Part001.parseScript raw.
Proof.
  split; [|split].
  - now rewrite !ScriptJsFacts.parseScript_eq, trimmedLines_removeBlankLines.
  - apply LegacyFacts.parseScript_removeBlankLines.
  - apply LegacyFacts.parseScript_removeBlankLines.
Qed.

(** The script of section 8, with and without its blank lines. *)
Example blank_lines_section_8 :
  removeBlankLines false
    (script ["Diapositiva 1"; "Título: A"; ""; ""; "Contenido: z"])
  = script ["Diapositiva 1"; "Título: A"; "Contenido: z"] /\
  ScriptJs.parseScript
    (script ["Diapositiva 1"; "Título: A"; ""; ""; "Contenido: z"])
  = Ok [mkSlide (str "A") [str "z"] None [] []].
Proof. split; vm_compute; reflexivity. Qed.

(** *** No blank fragment *)

(** C9.  No element of [content], of [graph.labels] or of [attachments]
    of a slide of the result is an empty or white-space-only string: in
    [src/script.js] for every input, in the older copies for every input
    on which they return. *)
Theorem no_blank_fragments :
  (forall raw, exists sl,
      ScriptJs.parseScript raw = Ok sl /\ Forall slideOk sl) /\
  (forall raw sl, Part000.parseScript raw = Ok sl -> Forall slideOk sl) /\
  (forall raw sl, Part001.parseScript raw = Ok sl -> Forall slideOk sl).
Proof.
  split; [|split].
  - intros raw; rewrite ScriptJsFacts.parseScript_eq.
    eexists; split; [reflexivity|].
    apply finish_ok, ScriptJsFacts.fold_stepLine_ok; split; constructor.
  - intros raw sl; apply LegacyFacts.parseScript_ok.
  - intros raw sl; apply LegacyFacts.parseScript_ok.
Qed.

Lemma no_blank_fragments_witness :
  Forall slideOk
    [mkSlide [] [str "a"; str "b"]
       (Some (mkGraph [str "p"; str "q"] [Dec false 1 0])) []
       [str "x.pdf"]].
Proof.
  destruct no_blank_fragments as (_ & H & _).
  apply (H (script ["Diapositiva 1"; "Contenido: a; ; b;";
                    "Datos: Labels: p, , q,; Valores: 1, ,";
                    "Adjunto: , x.pdf, "])).
  vm_compute; reflexivity.
Defined.

(** *** The slide marker *)

(** C10.  A line whose trimmed form is the marker word in any letter case,
    white space, digits and then anything at all flushes the current slide
    (if any) and starts a new slide with all default fields; the state
    after the line does not depend on the digits or on the text after
    them. *)
Theorem slide_marker_remainder_discarded
    (w ws ds rest : jsstring) (st : State) :
  sameWordCI (str "Diapositiva") w ->
  ws <> [] -> forallb isWhiteSpace ws = true ->
  ds <> [] -> forallb isDigit ds = true ->
  (forall rawLine, trim rawLine = (w ++ ws ++ ds ++ rest)%list ->
     ScriptJs.processLine st rawLine = Ok (startNewSlide st)) /\
  (forall reTitle,
     Legacy.processLine reTitle st (w ++ ws ++ ds ++ rest)%list
     = Ok (startNewSlide st)) /\
  slides (startNewSlide st)
  = match current st with
    | Some c => (slides st ++ [c])%list
    | None => slides st
    end /\
  current (startNewSlide st) = Some emptySlide.
Proof.
  intros Hw Hws1 Hws2 Hds1 Hds2.
  pose proof (reSlide_matches w ws ds rest Hw Hws1 Hws2 Hds1 Hds2) as Hm.
  split; [|split; [|split; reflexivity]].
  - intros rawLine E; unfold ScriptJs.processLine; rewrite E, Hm.
    change (str "Diapositiva") with (68 :: str "iapositiva")%list in Hw.
    inversion Hw; subst; reflexivity.
  - intros reTitle; unfold Legacy.processLine; now rewrite Hm.
Qed.

Lemma slide_marker_remainder_discarded_witness :
  ScriptJs.processLine (mkState [] (Some (mkSlide (str "A") [] None [] [])))
    (str "  diapositiva 3 Introducción ")
  = Ok (mkState [mkSlide (str "A") [] None [] []] (Some emptySlide)).
Proof.
  destruct (slide_marker_remainder_discarded
              (str "diapositiva") (str " ") (str "3") (str " Introducción")
              (mkState [] (Some (mkSlide (str "A") [] None [] []))))
    as (H & _).
  - repeat constructor.
  - discriminate.
  - reflexivity.
  - discriminate.
  - reflexivity.
  - apply H; vm_compute; reflexivity.
Defined.

(** *** The keywords *)

Lemma exec_Chars_app (p w s : jsstring) :
  sameWordCI p w -> exec (Chars p) (w ++ s)%list = Some s.
Proof.
  intros H; unfold exec; cbn [rmatch]; now rewrite (stripPrefixCI_app _ _ _ H).
Qed.

Lemma test_Chars_app (p w s : jsstring) :
  sameWordCI p w -> test (Chars p) (w ++ s)%list = true.
Proof. intros H; unfold test; now rewrite (exec_Chars_app _ _ _ H). Qed.

Lemma sameWordCI_head (a : N) (p w : jsstring) :
  sameWordCI (a :: p) w ->
  exists c w', w = c :: w' /\ canonicalize c = canonicalize a.
Proof.
  intros H; inversion H as [|a' c p' w' Hac _]; subst.
  exists c, w'; split; [reflexivity|].
  apply N.eqb_eq in Hac; congruence.
Qed.

Lemma stripPrefixCI_head_mismatch (a c : N) (p s : jsstring) :
  canonicalize a <> canonicalize c -> stripPrefixCI (a :: p) (c :: s) = None.
Proof.
  intros H; simpl; unfold eqCI.
  destruct (N.eqb_spec (canonicalize a) (canonicalize c)); [contradiction|].
  reflexivity.
Qed.

(** The title keyword of [src/script.js] and of the older front-end
    script, with or without the accent, in any letter case. *)
Lemma exec_title (w x : jsstring) :
  sameWordCI (str "Título") w \/ sameWordCI (str "Titulo") w ->
  exec ScriptJs.reTitle (w ++ str ":" ++ x)%list = Some x.
Proof.
  intros H; unfold exec, ScriptJs.reTitle; cbn [rmatch].
  destruct H as [H|H].
  - rewrite (stripPrefixCI_app _ _ _ H); reflexivity.
  - rewrite (stripPrefixCI_other_word (str "Titulo") (str "Título") w _ H)
      by (reflexivity || discriminate).
    rewrite (stripPrefixCI_app _ _ _ H); reflexivity.
Qed.

Lemma title_word_head (w : jsstring) :
  sameWordCI (str "Título") w \/ sameWordCI (str "Titulo") w ->
  exists c w', w = c :: w' /\ canonicalize c = 84.
Proof.
  intros [H|H].
  - change (str "Título") with (84 :: str "ítulo")%list in H.
    exact (sameWordCI_head _ _ _ H).
  - change (str "Titulo") with (84 :: str "itulo")%list in H.
    exact (sameWordCI_head _ _ _ H).
Qed.

(** In [src/script.js] a line whose trimmed form is the title keyword
    and [x] sets the title to the trimmed [x], whatever the letter case
    and with or without the accent; the slide is created if need be. *)
Lemma script_js_title_line (st : State) (rawLine w x : jsstring) :
  sameWordCI (str "Título") w \/ sameWordCI (str "Titulo") w ->
  trim rawLine = (w ++ str ":" ++ x)%list ->
  ScriptJs.processLine st rawLine
  = Ok (mkState (slides st)
          (Some (setTitle (trim x) (ScriptJsSpec.cursor st)))).
Proof.
  intros Hw E; rewrite ScriptJsFacts.processLine_step.
  unfold ScriptJsSpec.step, ScriptJsSpec.stepLine, ScriptJsSpec.update.
  rewrite E; pose proof (exec_title w x Hw) as Hx.
  destruct (title_word_head w Hw) as (c & w' & -> & Hc).
  change ((c :: w') ++ str ":" ++ x)%list
    with (c :: (w' ++ str ":" ++ x))%list in *.
  simpl truthy; cbv iota.
  rewrite not_reSlide_by_head by (rewrite Hc; discriminate).
  unfold test, replace; now rewrite Hx.
Qed.

(** The same in the older front-end script, when there is a slide. *)
Lemma part000_title_line (st : State) (c : Slide) (w x : jsstring) :
  sameWordCI (str "Título") w \/ sameWordCI (str "Titulo") w ->
  current st = Some c ->
  Legacy.processLine Part000.reTitle st (w ++ str ":" ++ x)%list
  = Ok (mkState (slides st) (Some (setTitle (trim x) c))).
Proof.
  intros Hw Hc; rewrite (LegacyFacts.processLine_current _ _ c _ Hc).
  unfold LegacySpec.stepLine, LegacySpec.update; rewrite Hc.
  pose proof (exec_title w x Hw) as Hx.
  destruct (title_word_head w Hw) as (c1 & w' & -> & Hc1).
  change ((c1 :: w') ++ str ":" ++ x)%list
    with (c1 :: (w' ++ str ":" ++ x))%list in *.
  rewrite not_reSlide_by_head by (rewrite Hc1; discriminate).
  unfold test, replace; change Part000.reTitle with ScriptJs.reTitle.
  now rewrite Hx.
Qed.

(** C4.  The claim: the Title keyword in any letter case, with or without
    the accent, sets the title.  It holds in [src/script.js] and in the
    older front-end script ([script_js_title_line], [part000_title_line]).
    The test script ([src/unnamed/part_001]) only knows the accented
    spelling: there the unaccented lines are content and the title stays
    empty, also on the script that the test itself feeds to the parser,
    which spells the keyword without the accent. *)
Theorem unaccented_title_in_test_script :
  Part001.parseScript (script ["Diapositiva 1"; "TITULO: x"])
  = Ok [mkSlide [] [str "TITULO: x"] None [] []] /\
  Part001.parseScript (script ["Diapositiva 1"; "titulo: x"])
  = Ok [mkSlide [] [str "titulo: x"] None [] []] /\
  Part001.parseScript (script ["Diapositiva 1"; "Título: x"])
  = Ok [mkSlide (str "x") [] None [] []] /\
  Part001.parseScript
    (script ["Diapositiva 1"; "Titulo: Presentacion de prueba";
             "Contenido: Esto es la primera diapositiva"])
  = Ok [mkSlide []
          [str "Titulo: Presentacion de prueba";
           str "Esto es la primera diapositiva"] None [] []] /\
  Part000.parseScript (script ["Diapositiva 1"; "TITULO: x"])
  = Ok [mkSlide (str "x") [] None [] []] /\
  ScriptJs.parseScript (script ["Diapositiva 1"; "TITULO: x"])
  = Ok [mkSlide (str "x") [] None [] []] /\
  ScriptJs.parseScript (script ["Diapositiva 1"; "titulo: x"])
  = Ok [mkSlide (str "x") [] None [] []].
Proof. repeat split; vm_compute; reflexivity. Qed.

(** The Data keyword of the older copies: three spellings. *)
Lemma legacy_data_line (reTitle : regex) (st : State) (c : Slide)
    (w rest : jsstring) :
  (forall s, test reTitle s = true ->
     exists c s', s = c :: s' /\ canonicalize c = 84) ->
  sameWordCI (str "Datos:") w \/ sameWordCI (str "Gráfica:") w \/
  sameWordCI (str "Grafica:") w ->
  current st = Some c ->
  Legacy.processLine reTitle st (w ++ rest)%list
  = Ok (mkState (slides st)
          (Some (setGraph (Legacy.dataGraph (trim rest)) c))).
Proof.
  intros HT Hw Hc; rewrite (LegacyFacts.processLine_current _ _ c _ Hc).
  assert (Hd : LegacySpec.isDataLine (w ++ rest)%list = true).
  { unfold LegacySpec.isDataLine.
    destruct Hw as [H|[H|H]].
    - unfold Legacy.reDatos; now rewrite (test_Chars_app _ _ _ H).
    - unfold Legacy.reGraficaAcute; rewrite (test_Chars_app _ _ _ H).
      apply orb_true_iff; left; apply orb_true_r.
    - unfold Legacy.reGrafica; rewrite (test_Chars_app _ _ _ H).
      apply orb_true_r. }
  destruct (LegacyFacts.legacy_data_line_branch reTitle HT _ Hd) as (Hs & _ & _).
  unfold LegacySpec.stepLine; rewrite Hs, Hc; simpl option_map.
  rewrite (LegacyFacts.legacy_update_data reTitle HT _ c Hd).
  do 4 f_equal.
  unfold replace, exec, Legacy.reDataPrefix; cbn [rmatch].
  destruct Hw as [H|[H|H]].
  - change (str "Datos:") with (68 :: str "atos:")%list in H.
    destruct (sameWordCI_head _ _ _ H) as (c1 & w' & -> & Hc1).
    change (str "Gráfica:") with (71 :: str "ráfica:")%list.
    change (str "Grafica:") with (71 :: str "rafica:")%list.
    rewrite <- !app_comm_cons.
    rewrite !stripPrefixCI_head_mismatch by (rewrite Hc1; discriminate).
    change (68 :: str "atos:")%list with (str "Datos:") in *.
    rewrite app_comm_cons, (stripPrefixCI_app _ _ _ H); reflexivity.
  - now rewrite (stripPrefixCI_app _ _ _ H).
  - rewrite (stripPrefixCI_other_word (str "Grafica:") (str "Gráfica:") w _ H)
      by (reflexivity || discriminate).
    now rewrite (stripPrefixCI_app _ _ _ H).
Qed.

(** The Data keyword of [src/script.js]: one spelling. *)
Lemma script_js_data_line (st : State) (rawLine w rest : jsstring) :
  sameWordCI (str "Datos:") w ->
  trim rawLine = (w ++ rest)%list ->
  ScriptJs.processLine st rawLine
  = Ok (mkState (slides st)
          (Some (setGraph (ScriptJs.dataGraph (trim rest))
                   (ScriptJsSpec.cursor st)))).
Proof.
  intros Hw E; rewrite ScriptJsFacts.processLine_step.
  assert (Hd : test ScriptJs.reData (w ++ rest)%list = true)
    by now apply test_Chars_app.
  destruct (ScriptJsFacts.data_line_branch _ Hd) as (Ht & Hs & _).
  unfold ScriptJsSpec.step, ScriptJsSpec.stepLine; rewrite E, Ht, Hs.
  rewrite (ScriptJsFacts.update_data _ _ Hd).
  unfold replace, ScriptJs.reData; now rewrite (exec_Chars_app _ _ _ Hw).
Qed.

(** In [src/script.js] a line that starts with one of the two other
    spellings matches no keyword pattern: its fragments are content. *)
Lemma script_js_grafica_line (st : State) (rawLine w rest : jsstring) :
  sameWordCI (str "Gráfica:") w \/ sameWordCI (str "Grafica:") w ->
  trim rawLine = (w ++ rest)%list ->
  ScriptJs.processLine st rawLine
  = Ok (mkState (slides st)
          (Some (pushContent (trimmedNonEmpty (split semicolon (w ++ rest)%list))
                   (ScriptJsSpec.cursor st)))).
Proof.
  intros Hw E; rewrite ScriptJsFacts.processLine_step.
  assert (Hh : exists c w', w = c :: w' /\ canonicalize c = 71).
  { destruct Hw as [H|H].
    - change (str "Gráfica:") with (71 :: str "ráfica:")%list in H.
      exact (sameWordCI_head _ _ _ H).
    - change (str "Grafica:") with (71 :: str "rafica:")%list in H.
      exact (sameWordCI_head _ _ _ H). }
  destruct Hh as (c & w' & -> & Hc).
  unfold ScriptJsSpec.step, ScriptJsSpec.stepLine, ScriptJsSpec.update.
  rewrite E, <- !app_comm_cons; simpl truthy; cbv iota.
  rewrite not_reSlide_by_head by (rewrite Hc; discriminate).
  rewrite !test_false_by_head;
    try reflexivity;
    rewrite Hc; simpl; intuition discriminate.
Qed.

(** C2.  The claim: a line that begins with any of the three spellings of
    the Data keyword is a Data line and sets [graph].  It holds in the
    older copies ([legacy_data_line]).  The pattern of [src/script.js] has
    the spelling [Datos:] only ([script_js_data_line]): there a line that
    begins with one of the two other spellings is split into content and
    [graph] stays [null] ([script_js_grafica_line]). *)
Theorem grafica_line_in_script_js :
  ScriptJs.parseScript
    (script ["Diapositiva 1"; "Gráfica: Labels: a, b; Valores: 1, 2"])
  = Ok [mkSlide [] [str "Gráfica: Labels: a, b"; str "Valores: 1, 2"]
          None [] []] /\
  ScriptJs.parseScript
    (script ["Diapositiva 1"; "Grafica: Labels: a, b; Valores: 1, 2"])
  = Ok [mkSlide [] [str "Grafica: Labels: a, b"; str "Valores: 1, 2"]
          None [] []] /\
  ScriptJs.parseScript
    (script ["Diapositiva 1"; "Datos: Labels: a, b; Valores: 1, 2"])
  = Ok [mkSlide [] []
          (Some (mkGraph [str "a"; str "b"] [Dec false 1 0; Dec false 2 0]))
          [] []] /\
  Part000.parseScript
    (script ["Diapositiva 1"; "Gráfica: Labels: a, b; Valores: 1, 2"])
  = Ok [mkSlide [] []
          (Some (mkGraph [str "a"; str "b"] [Dec false 1 0; Dec false 2 0]))
          [] []].
Proof. repeat split; vm_compute; reflexivity. Qed.

(** *** Data lines *)

Lemma script_js_other_lines (post : list jsstring) :
  Forall otherLine post ->
  forall st c, current st = Some c ->
  exists c', current (fold_left ScriptJsSpec.step post st) = Some c' /\
             graph c' = graph c.
Proof.
  induction 1 as [|l post [Hd Hs] _ IH]; intros st c Hc.
  - exists c; now split.
  - simpl fold_left.
    assert (Hstep : exists c1, current (ScriptJsSpec.step st l) = Some c1 /\
                               graph c1 = graph c).
    { unfold ScriptJsSpec.step.
      destruct (truthy (trim l)); [|exists c; now split].
      unfold ScriptJsSpec.stepLine, ScriptJsSpec.cursor; rewrite Hs, Hc.
      eexists; split; [reflexivity|].
      now apply ScriptJsFacts.update_graph_other. }
    destruct Hstep as (c1 & Hc1 & Hg1).
    destruct (IH _ _ Hc1) as (c' & Hc' & Hg').
    exists c'; split; [exact Hc'|congruence].
Qed.

Lemma script_js_data_step (st : State) (d : jsstring) :
  test ScriptJs.reData (trim d) = true ->
  current (ScriptJsSpec.step st d)
  = Some (setGraph
            (ScriptJs.dataGraph (trim (replace ScriptJs.reData (trim d))))
            (ScriptJsSpec.cursor st)).
Proof.
  intros Hd; destruct (ScriptJsFacts.data_line_branch _ Hd) as (Ht & Hs & _).
  unfold ScriptJsSpec.step, ScriptJsSpec.stepLine; rewrite Ht, Hs.
  simpl; now rewrite ScriptJsFacts.update_data.
Qed.

Lemma legacy_other_lines_graph (reTitle : regex) (post : list jsstring)
    (st : State) (c : Slide) :
  Forall otherLegacyLine post -> current st = Some c ->
  exists c', current (fold_left (LegacySpec.stepLine reTitle) post st)
             = Some c' /\ graph c' = graph c.
Proof.
  intros H Hc; revert st c Hc; induction H as [|l post [Hd Hs] _ IH];
    intros st c Hc.
  - exists c; now split.
  - simpl fold_left.
    destruct (IH (LegacySpec.stepLine reTitle st l)
                 (LegacySpec.update reTitle l c)) as (c' & Hc' & Hg').
    + unfold LegacySpec.stepLine; now rewrite Hs, Hc.
    + exists c'; split; [exact Hc'|].
      rewrite Hg'; now apply LegacyFacts.legacy_update_graph_other.
Qed.

Lemma legacy_copies_title (reTitle : regex) :
  In reTitle [Part000.reTitle; Part001.reTitle] ->
  forall s, test reTitle s = true ->
  exists c s', s = c :: s' /\ canonicalize c = 84.
Proof.
  intros [<-|[<-|[]]];
    [apply LegacyFacts.reTitle_T_000|apply LegacyFacts.reTitle_T_001].
Qed.

(** C5.  The graph of a slide is the one of its most recent Data line:
    whatever came before the line [d] (other Data lines of the same slide
    included), after [d] and the other lines of the slide that follow it
    the graph is the record built from [d] alone, starting from two empty
    lists.  In [src/script.js] for every state; in the older copies when
    there is a current slide. *)
Theorem last_data_line_wins :
  (forall st pre d post,
     test ScriptJs.reData (trim d) = true ->
     Forall otherLine post ->
     exists st' c,
       forOf ScriptJs.processLine (pre ++ d :: post)%list st = Ok st' /\
       current st' = Some c /\
       graph c
       = Some (fold_left ScriptJs.section
                 (split semicolon (trim (replace ScriptJs.reData (trim d))))
                 (mkGraph [] []))) /\
  (forall reTitle st pre d post,
     In reTitle [Part000.reTitle; Part001.reTitle] ->
     current st <> None ->
     LegacySpec.isDataLine d = true ->
     Forall otherLegacyLine post ->
     exists st' c,
       forOf (Legacy.processLine reTitle) (pre ++ d :: post)%list st = Ok st' /\
       current st' = Some c /\
       graph c
       = Some (fold_left Legacy.section
                 (map trim
                    (split semicolon (trim (replace Legacy.reDataPrefix d))))
                 (mkGraph [] []))).
Proof.
  split.
  - intros st pre d post Hd Hpost.
    rewrite ScriptJsFacts.forOf_processLine, fold_left_app; simpl fold_left.
    set (st1 := fold_left ScriptJsSpec.step pre st).
    destruct (script_js_other_lines post Hpost _ _ (script_js_data_step st1 d Hd))
      as (c' & Hc' & Hg').
    exists (fold_left ScriptJsSpec.step post (ScriptJsSpec.step st1 d)), c'.
    split; [reflexivity|split; [exact Hc'|exact Hg']].
  - intros reTitle st pre d post Hin Hst Hd Hpost.
    pose proof (legacy_copies_title reTitle Hin) as HT.
    rewrite (LegacyFacts.forOf_current reTitle _ _ Hst), fold_left_app.
    simpl fold_left.
    set (st1 := fold_left (LegacySpec.stepLine reTitle) pre st).
    assert (H1 : current st1 <> None)
      by now apply LegacyFacts.fold_stepLine_current.
    destruct (current st1) as [c1|] eqn:Hc1; [|congruence].
    destruct (LegacyFacts.legacy_data_line_branch reTitle HT _ Hd) as (Hs & _ & _).
    destruct (legacy_other_lines_graph reTitle post
                (LegacySpec.stepLine reTitle st1 d)
                (LegacySpec.update reTitle d c1) Hpost)
      as (c' & Hc' & Hg').
    + unfold LegacySpec.stepLine; now rewrite Hs, Hc1.
    + eexists _, c'; split; [reflexivity|split; [exact Hc'|]].
      now rewrite Hg', (LegacyFacts.legacy_update_data reTitle HT _ _ Hd).
Qed.

Lemma last_data_line_wins_witness :
  exists st' c,
    forOf ScriptJs.processLine
      [str "Diapositiva 1"; str "Datos: Labels: a, b; Valores: 1, 2";
       str "Datos: Valores: 7"; str "Contenido: z"] initial = Ok st' /\
    current st' = Some c /\
    graph c = Some (mkGraph [] [Dec false 7 0]).
Proof.
  destruct last_data_line_wins as (H & _).
  apply (H initial
           [str "Diapositiva 1"; str "Datos: Labels: a, b; Valores: 1, 2"]
           (str "Datos: Valores: 7") [str "Contenido: z"]).
  - reflexivity.
  - repeat constructor.
Defined.

Lemma legacy_data_step (reTitle : regex) (st : State) (c : Slide)
    (line : jsstring) :
  In reTitle [Part000.reTitle; Part001.reTitle] ->
  current st = Some c ->
  LegacySpec.isDataLine line = true ->
  Legacy.processLine reTitle st line
  = Ok (mkState (slides st)
          (Some (setGraph
                   (Legacy.dataGraph (trim (replace Legacy.reDataPrefix line)))
                   c))).
Proof.
  intros Hin Hc Hd; pose proof (legacy_copies_title reTitle Hin) as HT.
  rewrite (LegacyFacts.processLine_current _ _ c _ Hc).
  destruct (LegacyFacts.legacy_data_line_branch reTitle HT _ Hd) as (Hs & _ & _).
  unfold LegacySpec.stepLine; rewrite Hs, Hc; simpl option_map.
  now rewrite (LegacyFacts.legacy_update_data reTitle HT _ _ Hd).
Qed.




(** C8.  A Data line none of whose sections is under the labels or the
    values sub-key sets the graph to a record with two empty lists; a
    slide whose lines hold no Data line keeps [graph] at [null]. *)
Theorem data_line_without_sub_keys :
  (forall st line,
     test ScriptJs.reData (trim line) = true ->
     forallb ScriptJsSpec.noSubKey
       (split semicolon (trim (replace ScriptJs.reData (trim line)))) = true ->
     exists st' c,
       ScriptJs.processLine st line = Ok st' /\
       current st' = Some c /\ graph c = Some (mkGraph [] [])) /\
  (forall st ls,
     Forall otherLine ls ->
     exists st' c,
       forOf ScriptJs.processLine ls (startNewSlide st) = Ok st' /\
       current st' = Some c /\ graph c = None) /\
  (forall reTitle st line,
     In reTitle [Part000.reTitle; Part001.reTitle] ->
     current st <> None ->
     LegacySpec.isDataLine line = true ->
     forallb LegacySpec.noSubKey
       (map trim (split semicolon (trim (replace Legacy.reDataPrefix line))))
     = true ->
     exists st' c,
       Legacy.processLine reTitle st line = Ok st' /\
       current st' = Some c /\ graph c = Some (mkGraph [] [])) /\
  (forall reTitle st ls,
     Forall otherLegacyLine ls ->
     exists st' c,
       forOf (Legacy.processLine reTitle) ls (startNewSlide st) = Ok st' /\
       current st' = Some c /\ graph c = None).
Proof.
  split; [|split; [|split]].
  - intros st line Hd Hn.
    rewrite ScriptJsFacts.processLine_step.
    eexists _, _; split; [reflexivity|].
    split; [now apply script_js_data_step|].
    simpl; now rewrite (ScriptJsFacts.dataGraph_noSubKey _ Hn).
  - intros st ls Hls.
    rewrite ScriptJsFacts.forOf_processLine.
    destruct (script_js_other_lines ls Hls (startNewSlide st) emptySlide)
      as (c' & Hc' & Hg'); [reflexivity|].
    eexists _, c'; split; [reflexivity|split; [exact Hc'|exact Hg']].
  - intros reTitle st line Hin Hst Hd Hn.
    destruct (current st) as [c|] eqn:Hc; [|congruence].
    rewrite (legacy_data_step reTitle st c line Hin Hc Hd).
    eexists _, _; split; [reflexivity|].
    split; [reflexivity|].
    simpl; now rewrite (LegacyFacts.legacy_dataGraph_noSubKey _ Hn).
  - intros reTitle st ls Hls.
    rewrite (LegacyFacts.forOf_current reTitle) by discriminate.
    destruct (legacy_other_lines_graph reTitle ls (startNewSlide st)
                emptySlide Hls) as (c' & Hc' & Hg'); [reflexivity|].
    eexists _, c'; split; [reflexivity|split; [exact Hc'|exact Hg']].
Qed.

Lemma data_line_without_sub_keys_witness :
  exists st' c,
    ScriptJs.processLine initial (str "Datos: ventas de 2023; en miles") = Ok st' /\
    current st' = Some c /\ graph c = Some (mkGraph [] []).
Proof.
  destruct data_line_without_sub_keys as (H & _).
  apply (H initial (str "Datos: ventas de 2023; en miles")); reflexivity.
Defined.

(** *** Lines before the first slide marker *)

Lemma script_js_no_marker (ls : list jsstring) :
  Forall (fun l => test reSlide l = false) ls ->
  forall st,
  slides (fold_left ScriptJsSpec.stepLine ls st) = slides st /\
  content (ScriptJsSpec.cursor (fold_left ScriptJsSpec.stepLine ls st))
  = (content (ScriptJsSpec.cursor st)
     ++ flat_map ScriptJsSpec.contentOf ls)%list /\
  (ls <> [] -> current (fold_left ScriptJsSpec.stepLine ls st) <> None).
Proof.
  induction 1 as [|l ls Hl _ IH]; intros st.
  - simpl; rewrite app_nil_r; repeat split; congruence.
  - simpl fold_left.
    assert (E : ScriptJsSpec.stepLine st l
                = mkState (slides st)
                    (Some (ScriptJsSpec.update l (ScriptJsSpec.cursor st))))
      by (unfold ScriptJsSpec.stepLine; now rewrite Hl).
    destruct (IH (ScriptJsSpec.stepLine st l)) as (Hs & Hc & Hn).
    rewrite E in Hs, Hc, Hn |- *.
    change (slides (mkState (slides st) ?c)) with (slides st) in Hs.
    change (ScriptJsSpec.cursor (mkState (slides st) (Some ?c)))
      with c in Hc.
    rewrite ScriptJsFacts.update_content, <- app_assoc in Hc.
    split; [exact Hs|split; [exact Hc|intros _]].
    destruct ls as [|l' ls']; [discriminate|].
    apply Hn; discriminate.
Qed.

Lemma legacy_skips_unrecognized (reTitle : regex) (st : State)
    (line : jsstring) :
  current st = None ->
  LegacySpec.unrecognized reTitle line = true ->
  Legacy.processLine reTitle st line = Ok st.
Proof.
  unfold LegacySpec.unrecognized, Legacy.processLine; intros Hc H.
  apply negb_true_iff in H.
  repeat (apply orb_false_iff in H as [H ?]).
  repeat match goal with E : test _ line = false |- _ => rewrite E; clear E end.
  now rewrite Hc.
Qed.

Lemma legacy_only_unrecognized (reTitle : regex) (raw : jsstring) :
  Forall (fun l => LegacySpec.unrecognized reTitle l = true) (trimmedLines raw) ->
  Legacy.parseScript reTitle raw = Ok [].
Proof.
  unfold Legacy.parseScript; rewrite LegacyFacts.lines_trimmedLines.
  intros H.
  assert (E : forOf (Legacy.processLine reTitle) (trimmedLines raw) initial
              = Ok initial).
  { induction H as [|l ls Hl _ IH]; [reflexivity|].
    simpl; rewrite (legacy_skips_unrecognized reTitle initial l eq_refl Hl).
    exact IH. }
  now rewrite E.
Qed.

(** C3, as the specification states it, fails.  The first input below has
    no slide marker and one non-empty line, whose fallback split is the
    line itself; [src/script.js] returns one slide, but the line went to
    the title and the content is empty.  On the second input, one
    unrecognized line, the older front-end script returns no slide at all:
    its fallback branch is guarded by [else if (current)]. *)
Lemma keyword_line_is_not_content :
  trimmedLines (str "Título: x") = [str "Título: x"] /\
  test reSlide (str "Título: x") = false /\
  trimmedNonEmpty (split semicolon (str "Título: x")) = [str "Título: x"] /\
  ScriptJs.parseScript (str "Título: x") = Ok [mkSlide (str "x") [] None [] []] /\
  trimmedLines (str "hola") = [str "hola"] /\
  test reSlide (str "hola") = false /\
  Part000.parseScript (str "hola") = Ok [].
Proof. repeat split; vm_compute; reflexivity. Qed.

(** C3, amended.  In [src/script.js], an input with no slide marker and at
    least one line that is not empty after trimming gives exactly one
    slide.  Its content is, in order, what the lines contribute: the
    fragments of the text after a Content keyword, the fragments of a line
    that matches no keyword, and nothing for a Title, Data, Description or
    Attachment line, which fill their own fields.  When no line matches a
    keyword, the content is the fallback split of all the lines.  The
    older copies start a slide at a slide marker only: an input made of
    unrecognized lines gives no slide there. *)
Theorem lazy_slide_creation :
  (forall raw,
     trimmedLines raw <> [] ->
     Forall (fun l => test reSlide l = false) (trimmedLines raw) ->
     exists c,
       ScriptJs.parseScript raw = Ok [c] /\
       content c = flat_map ScriptJsSpec.contentOf (trimmedLines raw) /\
       (Forall (fun l => ScriptJsSpec.unrecognized l = true) (trimmedLines raw) ->
        content c
        = flat_map (fun l => trimmedNonEmpty (split semicolon l))
            (trimmedLines raw))) /\
  (forall raw,
     Forall (fun l => LegacySpec.unrecognized Part000.reTitle l = true)
       (trimmedLines raw) ->
     Part000.parseScript raw = Ok []) /\
  (forall raw,
     Forall (fun l => LegacySpec.unrecognized Part001.reTitle l = true)
       (trimmedLines raw) ->
     Part001.parseScript raw = Ok []).
Proof.
  split; [|split; intros raw; apply legacy_only_unrecognized].
  intros raw Hne Hno; rewrite ScriptJsFacts.parseScript_eq.
  destruct (script_js_no_marker _ Hno initial) as (Hs & Hc & Hn).
  specialize (Hn Hne).
  destruct (fold_left ScriptJsSpec.stepLine (trimmedLines raw) initial)
    as [sl [c|]]; [|now elim Hn].
  unfold ScriptJsSpec.cursor in Hc; simpl in Hs, Hc; subst sl.
  exists c; split; [reflexivity|split; [exact Hc|]].
  intros Hun; rewrite Hc; clear - Hun.
  induction Hun as [|l ls Hl _ IH]; [reflexivity|].
  simpl; now rewrite IH, (ScriptJsFacts.contentOf_unrecognized _ Hl).
Qed.

Lemma lazy_slide_creation_witness :
  exists c,
    ScriptJs.parseScript (script ["hola; mundo"; ""; "Título: A"; " adiós "])
    = Ok [c] /\
    content c = [str "hola"; str "mundo"; str "adiós"].
Proof.
  destruct lazy_slide_creation as (H & _).
  destruct (H (script ["hola; mundo"; ""; "Título: A"; " adiós "]))
    as (c & Hp & Hc & _).
  - vm_compute; discriminate.
  - vm_compute; repeat constructor.
  - exists c; split; [exact Hp|exact Hc].
Defined.

(** ** Further properties: text that goes into a page *)

Local Open Scope N_scope.

Module PageFacts.

Import JsText ScriptJsPage.

Lemma replaceAll_app (c : N) (by_ s t : jsstring) :
  replaceAll c by_ (s ++ t)%list
  = (replaceAll c by_ s ++ replaceAll c by_ t)%list.
Proof. apply flat_map_app. Qed.

Lemma replaceAll_flat_map (c : N) (by_ : jsstring) (f : N -> jsstring)
    (s : jsstring) :
  replaceAll c by_ (flat_map f s) = flat_map (fun x => replaceAll c by_ (f x)) s.
Proof.
  induction s as [|x s IH]; [reflexivity|].
  simpl; now rewrite replaceAll_app, IH.
Qed.

Lemma replaceAll_other (c x : N) (by_ : jsstring) :
  (x =? c) = false -> replaceAll c by_ [x] = [x].
Proof. intros H; unfold replaceAll; simpl; now rewrite H. Qed.

(** The five replacements on one code unit. *)
Lemma esc_one (x : N) : esc (Some [x]) = escUnit x.
Proof.
  unfold esc, escUnit.
  destruct (x =? 38) eqn:H38;
    [apply N.eqb_eq in H38; subst; reflexivity|].
  rewrite (replaceAll_other 38 x _ H38).
  destruct (x =? 60) eqn:H60;
    [apply N.eqb_eq in H60; subst; reflexivity|].
  rewrite (replaceAll_other 60 x _ H60).
  destruct (x =? 62) eqn:H62;
    [apply N.eqb_eq in H62; subst; reflexivity|].
  rewrite (replaceAll_other 62 x _ H62).
  destruct (x =? 34) eqn:H34;
    [apply N.eqb_eq in H34; subst; reflexivity|].
  rewrite (replaceAll_other 34 x _ H34).
  destruct (x =? 39) eqn:H39;
    [apply N.eqb_eq in H39; subst; reflexivity|].
  apply (replaceAll_other 39 x _ H39).
Qed.

Lemma esc_cons (x : N) (s : jsstring) :
  esc (Some (x :: s)) = (esc (Some [x]) ++ esc (Some s))%list.
Proof.
  unfold esc; change (x :: s) with ([x] ++ s)%list.
  now rewrite !replaceAll_app.
Qed.

Lemma esc_flat_map (s : jsstring) : esc (Some s) = flat_map escUnit s.
Proof.
  induction s as [|x s IH]; [reflexivity|].
  rewrite esc_cons, esc_one, IH; reflexivity.
Qed.

End PageFacts.

(** The five replacements of [esc], made one after the other, come to one
    substitution made on every code unit at once: the entities written by
    an earlier replacement hold none of the code units that a later one
    looks for, and the ampersand is replaced first. *)
Theorem esc_is_one_substitution (s : jsstring) :
  ScriptJsPage.esc (Some s) = flat_map escUnit s /\
  ScriptJsPage.esc None = [].
Proof. split; [apply PageFacts.esc_flat_map|reflexivity]. Qed.

Lemma escUnit_inert (c : N) :
  forallb (fun x => negb ((x =? 60) || (x =? 62) || (x =? 34) || (x =? 39)))
    (escUnit c) = true.
Proof.
  unfold escUnit.
  destruct (c =? 38); [reflexivity|].
  destruct (c =? 60) eqn:H60; [reflexivity|].
  destruct (c =? 62) eqn:H62; [reflexivity|].
  destruct (c =? 34) eqn:H34; [reflexivity|].
  destruct (c =? 39) eqn:H39; [reflexivity|].
  simpl; now rewrite H60, H62, H34, H39.
Qed.

(** What [esc] returns holds no angle bracket and no quote, whatever it
    was given. *)
Theorem esc_output_has_no_markup (s : option jsstring) :
  forallb (fun x => negb ((x =? 60) || (x =? 62) || (x =? 34) || (x =? 39)))
    (ScriptJsPage.esc s) = true.
Proof.
  destruct s as [s|]; [|reflexivity].
  rewrite PageFacts.esc_flat_map.
  induction s as [|c s IH]; [reflexivity|].
  simpl; now rewrite forallb_app, escUnit_inert, IH.
Qed.

(** [esc] of a text put together from two parts is [esc] of the parts put
    together. *)
Theorem esc_of_concatenation (s t : jsstring) :
  ScriptJsPage.esc (Some ((s ++ t)%list : jsstring))
  = (ScriptJsPage.esc (Some s) ++ ScriptJsPage.esc (Some t))%list.
Proof.
  rewrite !PageFacts.esc_flat_map; apply flat_map_app.
Qed.

Lemma unescFrom_escUnit (c : N) (r : jsstring) :
  unescFrom 0 (escUnit c ++ r)%list = c :: unescFrom 0 r.
Proof.
  unfold escUnit.
  destruct (c =? 38) eqn:H38;
    [apply N.eqb_eq in H38; subst; reflexivity|].
  destruct (c =? 60) eqn:H60;
    [apply N.eqb_eq in H60; subst; reflexivity|].
  destruct (c =? 62) eqn:H62;
    [apply N.eqb_eq in H62; subst; reflexivity|].
  destruct (c =? 34) eqn:H34;
    [apply N.eqb_eq in H34; subst; reflexivity|].
  destruct (c =? 39) eqn:H39;
    [apply N.eqb_eq in H39; subst; reflexivity|].
  simpl; now rewrite H38.
Qed.

(** Nothing is lost in [esc]: reading the entities back gives the text
    that was escaped, so two different texts never escape to the same
    one. *)
Theorem esc_round_trip (s : jsstring) :
  unesc (ScriptJsPage.esc (Some s)) = s.
Proof.
  rewrite PageFacts.esc_flat_map.
  unfold unesc; induction s as [|c s IH]; [reflexivity|].
  simpl flat_map; now rewrite unescFrom_escUnit, IH.
Qed.

Lemma escUnit_fixed (c : N) : escUnit c = [c] <-> special c = false.
Proof.
  unfold escUnit, special.
  destruct (c =? 38) eqn:H38;
    [apply N.eqb_eq in H38; subst; split; discriminate|].
  destruct (c =? 60) eqn:H60;
    [apply N.eqb_eq in H60; subst; split; discriminate|].
  destruct (c =? 62) eqn:H62;
    [apply N.eqb_eq in H62; subst; split; discriminate|].
  destruct (c =? 34) eqn:H34;
    [apply N.eqb_eq in H34; subst; split; discriminate|].
  destruct (c =? 39) eqn:H39;
    [apply N.eqb_eq in H39; subst; split; discriminate|].
  split; reflexivity.
Qed.

Lemma escUnit_length (c : N) : (1 <= List.length (escUnit c))%nat.
Proof.
  unfold escUnit.
  repeat match goal with |- context [if ?b then _ else _] => destruct b end;
    simpl; lia.
Qed.

Lemma flat_map_escUnit_length (s : jsstring) :
  (List.length s <= List.length (flat_map escUnit s))%nat.
Proof.
  induction s as [|c s IH]; [simpl; lia|].
  simpl; rewrite length_app; pose proof (escUnit_length c); lia.
Qed.

(** [esc] changes a text exactly when the text holds one of the five code
    units: a text without them is returned as it is, and a text with one
    of them comes back longer - also a text that was escaped before. *)
Theorem esc_changes_only_special_text (s : jsstring) :
  ScriptJsPage.esc (Some s) = s <-> forallb (fun c => negb (special c)) s = true.
Proof.
  rewrite PageFacts.esc_flat_map.
  induction s as [|c s IH]; [split; reflexivity|].
  simpl; split.
  - intros E.
    assert (Hlen : List.length (escUnit c ++ flat_map escUnit s)%list
                   = S (List.length s)) by now rewrite E.
    rewrite length_app in Hlen.
    pose proof (escUnit_length c) as H1.
    pose proof (flat_map_escUnit_length s) as H2.
    assert (Hc : List.length (escUnit c) = 1%nat) by lia.
    destruct (special c) eqn:Hs.
    + exfalso; revert Hc Hs; unfold escUnit, special.
      repeat match goal with |- context [if ?b then _ else _] =>
        destruct b end; simpl; discriminate.
    + apply escUnit_fixed in Hs; rewrite Hs in E.
      injection E as E; simpl; now apply IH.
  - intros H; apply andb_prop in H as [Hc Hs].
    apply negb_true_iff, escUnit_fixed in Hc; rewrite Hc.
    simpl; f_equal; now apply IH.
Qed.

(** The [esc] of the page of a graph rewrites the ampersand and the left
    angle bracket only: its output holds no left angle bracket, and every
    other code unit of the text - a quote, an apostrophe, a right angle
    bracket - is in the output as it was in the text. *)
Theorem escGraph_leaves_quotes (s : jsstring) :
  ScriptJsPage.escGraph (Some s)
  = flat_map (fun c => if c =? 38 then str "&amp;"
                       else if c =? 60 then str "&lt;" else [c]) s /\
  forallb (fun x => negb (x =? 60)) (ScriptJsPage.escGraph (Some s)) = true /\
  (forall c, c <> 38 -> c <> 60 ->
     In c s -> In c (ScriptJsPage.escGraph (Some s))).
Proof.
  assert (E : ScriptJsPage.escGraph (Some s)
              = flat_map (fun c => if c =? 38 then str "&amp;"
                                   else if c =? 60 then str "&lt;" else [c]) s).
  { unfold ScriptJsPage.escGraph.
    induction s as [|x s IH]; [reflexivity|].
    change (x :: s) with ([x] ++ s)%list.
    rewrite !PageFacts.replaceAll_app, IH; simpl flat_map; f_equal.
    destruct (x =? 38) eqn:H38;
      [apply N.eqb_eq in H38; subst; reflexivity|].
    rewrite (PageFacts.replaceAll_other 38 x _ H38).
    destruct (x =? 60) eqn:H60;
      [apply N.eqb_eq in H60; subst; reflexivity|].
    now rewrite (PageFacts.replaceAll_other 60 x _ H60). }
  split; [exact E|rewrite E; clear E; split].
  - induction s as [|x s IH]; [reflexivity|].
    simpl; rewrite forallb_app, IH, andb_true_r.
    destruct (x =? 38); [reflexivity|].
    destruct (x =? 60) eqn:H60; [reflexivity|].
    cbn [forallb]; now rewrite H60.
  - intros c H38 H60 Hin; apply in_flat_map; exists c; split; [exact Hin|].
    apply N.eqb_neq in H38, H60; rewrite H38, H60; now left.
Qed.

Lemma escGraph_leaves_quotes_witness :
  In 39 (ScriptJsPage.escGraph (Some (str "L'Oréal <b>"))).
Proof.
  destruct (escGraph_leaves_quotes (str "L'Oréal <b>")) as (_ & _ & H).
  apply (H 39); [discriminate|discriminate|].
  vm_compute; tauto.
Defined.

(** ** Further properties: colours *)

Lemma upperAscii_hex (c : N) :
  isHexDigit c = true -> isUpperHexDigit (JsText.upperAscii c) = true.
Proof.
  unfold isHexDigit, isUpperHexDigit, JsText.upperAscii; intros H.
  destruct ((97 <=? c) && (c <=? 122)) eqn:Hl.
  - apply andb_prop in Hl as [H1 H2].
    apply N.leb_le in H1, H2.
    assert (Hc : c <= 102).
    { apply orb_prop in H as [H|H]; [apply orb_prop in H as [H|H]|];
        apply andb_prop in H as [Ha Hb]; apply N.leb_le in Ha, Hb; lia. }
    apply orb_true_iff; right.
    apply andb_true_iff; split; apply N.leb_le; lia.
  - apply orb_prop in H as [H|H]; [apply orb_prop in H as [H|H]|].
    + now rewrite H.
    + exfalso; apply andb_prop in H as [Ha Hb].
      apply N.leb_le in Ha, Hb.
      assert (Hl' : (97 <=? c) && (c <=? 122) = true)
        by (apply andb_true_iff; split; apply N.leb_le; lia).
      congruence.
    + rewrite H; apply orb_true_r.
Qed.

Lemma hex_is_ascii (ds : jsstring) :
  forallb isHexDigit ds = true -> forallb (fun c => c <? 128) ds = true.
Proof.
  induction ds as [|c ds IH]; [reflexivity|].
  simpl; intros H; apply andb_prop in H as [Hc Hds].
  rewrite (IH Hds), andb_true_r; apply N.ltb_lt.
  unfold isHexDigit in Hc.
  apply orb_prop in Hc as [H|H]; [apply orb_prop in H as [H|H]|];
    apply andb_prop in H as [Ha Hb]; apply N.leb_le in Ha, Hb; lia.
Qed.

(** [toPptxColor] on a colour written as the number sign and hexadecimal
    digits gives the digits in upper case: as many as there were, each
    one of 0-9 or A-F, and no number sign.  Without a colour ([null] or
    the empty string) it gives black. *)
Theorem toPptxColor_hex (toUpperCase : jsstring -> jsstring)
    (ds : jsstring) :
  (forall s, forallb (fun c => c <? 128) s = true ->
     toUpperCase s = map JsText.upperAscii s) ->
  forallb isHexDigit ds = true ->
  ScriptJsPage.toPptxColor toUpperCase (Some (35 :: ds))
  = map JsText.upperAscii ds /\
  forallb isUpperHexDigit
    (ScriptJsPage.toPptxColor toUpperCase (Some (35 :: ds))) = true /\
  List.length (ScriptJsPage.toPptxColor toUpperCase (Some (35 :: ds)))
  = List.length ds /\
  ScriptJsPage.toPptxColor toUpperCase None = str "000000" /\
  ScriptJsPage.toPptxColor toUpperCase (Some []) = str "000000".
Proof.
  intros Hup Hds.
  assert (E : ScriptJsPage.toPptxColor toUpperCase (Some (35 :: ds))
              = map JsText.upperAscii ds)
    by (unfold ScriptJsPage.toPptxColor; simpl; apply Hup, hex_is_ascii, Hds).
  rewrite E; repeat split.
  - clear E; induction ds as [|c ds IH]; [reflexivity|].
    simpl in Hds |- *; apply andb_prop in Hds as [Hc Hds].
    now rewrite (upperAscii_hex c Hc), (IH Hds).
  - apply length_map.
Qed.

Lemma toPptxColor_hex_witness :
  ScriptJsPage.toPptxColor (map JsText.upperAscii) (Some (str "#d4af37"))
  = str "D4AF37".
Proof.
  destruct (toPptxColor_hex (map JsText.upperAscii) (str "d4af37")) as (H & _).
  - intros s _; reflexivity.
  - reflexivity.
  - exact H.
Defined.

(** ** Further properties: the pages of the graphs and the README *)

Module PackageFacts.

Import JsText ScriptJsPage.

Lemma split_nonempty (sep : N) (s : jsstring) : split sep s <> [].
Proof.
  destruct s as [|c s]; simpl; [discriminate|].
  destruct (c =? sep); [discriminate|].
  destruct (split sep s); discriminate.
Qed.

Lemma split_app_sep (sep : N) (a b : jsstring) :
  split sep (a ++ sep :: b)%list = (split sep a ++ split sep b)%list.
Proof.
  induction a as [|c a IH]; [simpl; now rewrite N.eqb_refl|].
  simpl; destruct (c =? sep); [now rewrite IH|].
  rewrite IH; pose proof (split_nonempty sep a) as Hne.
  destruct (split sep a); [congruence|reflexivity].
Qed.

Lemma split_no_sep (sep : N) (s : jsstring) :
  forallb (fun c => negb (c =? sep)) s = true -> split sep s = [s].
Proof.
  induction s as [|c s IH]; [reflexivity|].
  simpl; intros H; apply andb_prop in H as [Hc Hs].
  apply negb_true_iff in Hc; rewrite Hc, (IH Hs); reflexivity.
Qed.

Lemma split_join (sep : N) (parts : list jsstring) :
  parts <> [] ->
  Forall (fun p => forallb (fun c => negb (c =? sep)) p = true) parts ->
  split sep (join [sep] parts) = parts.
Proof.
  intros Hne H; revert Hne.
  induction H as [|p ps Hp Hps IH]; intros Hne; [now elim Hne|].
  destruct ps as [|p2 ps'].
  - simpl; now apply split_no_sep.
  - change (join [sep] (p :: p2 :: ps'))
      with (p ++ sep :: join [sep] (p2 :: ps'))%list.
    rewrite split_app_sep, (split_no_sep sep p Hp), IH by discriminate.
    reflexivity.
Qed.

Lemma uintUnits_injective (d1 d2 : Decimal.uint) :
  uintUnits d1 = uintUnits d2 -> d1 = d2.
Proof.
  revert d2; induction d1; intros d2; destruct d2; simpl;
    try discriminate; try reflexivity;
    intros E; injection E as E; f_equal; now apply IHd1.
Qed.

Lemma numberToString_injective (m n : N) :
  numberToString m = numberToString n -> m = n.
Proof.
  unfold numberToString; intros E; apply uintUnits_injective in E.
  rewrite <- (DecimalN.Unsigned.of_to m), <- (DecimalN.Unsigned.of_to n).
  now rewrite E.
Qed.

Lemma uintUnits_digits (d : Decimal.uint) :
  forallb isDigit (uintUnits d) = true.
Proof. induction d; simpl; auto. Qed.

Lemma digits_no_LF (ds : jsstring) :
  forallb isDigit ds = true -> forallb (fun c => negb (c =? LF)) ds = true.
Proof.
  induction ds as [|c ds IH]; [reflexivity|].
  simpl; intros H; apply andb_prop in H as [Hc Hds].
  rewrite (IH Hds), andb_true_r.
  unfold isDigit in Hc; apply andb_prop in Hc as [H1 _].
  apply N.leb_le in H1; apply negb_true_iff, N.eqb_neq.
  unfold LF; lia.
Qed.

Lemma graphFileName_injective (m n : N) :
  graphFileName m = graphFileName n -> m = n.
Proof.
  unfold graphFileName; intros E.
  apply app_inv_head, app_inv_tail in E.
  now apply numberToString_injective.
Qed.

Section Pages.

Variable generateGraphHtml : Slide -> N -> jsstring.

Lemma fold_graphFileStep (slides : list Slide) (files : list GraphFile)
    (k : N) :
  fold_left (graphFileStep generateGraphHtml) slides (files, k)
  = ((files ++ numberedPages generateGraphHtml k (filter hasGraph slides))%list,
     k + N.of_nat (List.length (filter hasGraph slides))).
Proof.
  revert files k; induction slides as [|s slides IH]; intros files k.
  - simpl; now rewrite app_nil_r, N.add_0_r.
  - cbn [fold_left filter]; unfold graphFileStep at 2.
    destruct (hasGraph s) eqn:Hs; cbn [negb]; cbv iota.
    + rewrite IH; cbn [numberedPages List.length].
      rewrite <- app_assoc; cbn [app]; f_equal; lia.
    + now rewrite IH.
Qed.

Lemma buildGraphFiles_eq (slides : list Slide) :
  buildGraphFiles generateGraphHtml slides
  = numberedPages generateGraphHtml 1 (filter hasGraph slides).
Proof. unfold buildGraphFiles; now rewrite fold_graphFileStep. Qed.

Lemma numberedPages_length (k : N) (gs : list Slide) :
  List.length (numberedPages generateGraphHtml k gs) = List.length gs.
Proof.
  revert k; induction gs as [|g gs IH]; intros k; simpl; [reflexivity|].
  now rewrite IH.
Qed.

Lemma numberedPages_nth (gs : list Slide) (k : N) (i : nat) (g : Slide) :
  nth_error gs i = Some g ->
  nth_error (numberedPages generateGraphHtml k gs) i
  = Some (mkGraphFile (graphFileName (k + N.of_nat i))
            (generateGraphHtml g (k + N.of_nat i))).
Proof.
  revert k i; induction gs as [|g0 gs IH]; intros k i;
    [destruct i; discriminate|].
  destruct i as [|i]; simpl.
  - intros E; injection E as <-; now rewrite N.add_0_r.
  - intros E; rewrite (IH _ _ E).
    replace (k + 1 + N.of_nat i) with (k + N.pos (Pos.of_succ_nat i)) by lia.
    reflexivity.
Qed.

Lemma numberedPages_names (k : N) (gs : list Slide) (f : GraphFile) :
  In f (numberedPages generateGraphHtml k gs) ->
  exists j, k <= j /\ filename f = graphFileName j.
Proof.
  revert k; induction gs as [|g gs IH]; intros k; simpl; [tauto|].
  intros [<-|H]; [exists k; split; [lia|reflexivity]|].
  destruct (IH _ H) as (j & Hj & E); exists j; split; [lia|exact E].
Qed.

Lemma numberedPages_NoDup (k : N) (gs : list Slide) :
  NoDup (map filename (numberedPages generateGraphHtml k gs)).
Proof.
  revert k; induction gs as [|g gs IH]; intros k; simpl; constructor;
    [|apply IH].
  intros Hin; apply in_map_iff in Hin as (f & Ef & Hf).
  apply numberedPages_names in Hf as (j & Hj & E).
  rewrite E in Ef; apply graphFileName_injective in Ef; lia.
Qed.

End Pages.

End PackageFacts.

(** The pages built by the submit handler are those of the slides that
    have a graph with at least one label and one value, in the order of
    the slides: the page number [i] (counting from 0) is named
    grafica[i+1].html and holds what [generateGraphHtml] returns for the
    slide and the number [i+1].  Slides without such a graph take no
    number. *)
Theorem graph_pages_follow_graph_slides
    (generateGraphHtml : Slide -> N -> jsstring) (slides : list Slide) :
  List.length (ScriptJsPage.buildGraphFiles generateGraphHtml slides)
  = List.length (filter ScriptJsPage.hasGraph slides) /\
  forall i g,
    nth_error (filter ScriptJsPage.hasGraph slides) i = Some g ->
    nth_error (ScriptJsPage.buildGraphFiles generateGraphHtml slides) i
    = Some (ScriptJsPage.mkGraphFile
              (graphFileName (N.of_nat i + 1))
              (generateGraphHtml g (N.of_nat i + 1))).
Proof.
  rewrite PackageFacts.buildGraphFiles_eq; split.
  - apply PackageFacts.numberedPages_length.
  - intros i g H.
    rewrite (PackageFacts.numberedPages_nth generateGraphHtml _ 1 i g H).
    now rewrite N.add_comm.
Qed.

Lemma graph_pages_follow_graph_slides_witness :
  nth_error
    (ScriptJsPage.buildGraphFiles (fun s k => title s)
       [mkSlide (str "A") [] None [] [];
        mkSlide (str "B") [] (Some (mkGraph [str "x"] [Dec false 1 0])) [] [];
        mkSlide (str "C") [] (Some (mkGraph [] [])) [] [];
        mkSlide (str "D") [] (Some (mkGraph [str "y"] [Dec false 2 0])) [] []])
    1
  = Some (ScriptJsPage.mkGraphFile (str "grafica2.html") (str "D")).
Proof.
  destruct (graph_pages_follow_graph_slides (fun s k => title s)
    [mkSlide (str "A") [] None [] [];
     mkSlide (str "B") [] (Some (mkGraph [str "x"] [Dec false 1 0])) [] [];
     mkSlide (str "C") [] (Some (mkGraph [] [])) [] [];
     mkSlide (str "D") [] (Some (mkGraph [str "y"] [Dec false 2 0])) [] []])
    as (_ & H).
  apply (H 1%nat (mkSlide (str "D") []
                    (Some (mkGraph [str "y"] [Dec false 2 0])) [] [])).
  reflexivity.
Defined.

(** No two pages built by the submit handler have the same file name, so
    no page replaces another one in the package. *)
Theorem graph_page_names_are_distinct
    (generateGraphHtml : Slide -> N -> jsstring) (slides : list Slide) :
  NoDup (map ScriptJsPage.filename
           (ScriptJsPage.buildGraphFiles generateGraphHtml slides)).
Proof.
  rewrite PackageFacts.buildGraphFiles_eq.
  apply PackageFacts.numberedPages_NoDup.
Qed.

(** The README has eleven lines; its third line gives the number of
    slides and its fourth line a number of graphs, which is the number of
    pages that the submit handler builds for the same slides and never
    more than the number of slides. *)
Theorem readme_counts_the_pages
    (generateGraphHtml : Slide -> N -> jsstring) (slides : list Slide) :
  let lines := split LF (ScriptJsPage.generateReadme slides) in
  List.length lines = 11%nat /\
  nth 2 lines []
  = (str "- Diapositivas: "
     ++ JsText.numberToString (N.of_nat (List.length slides)))%list /\
  nth 3 lines []
  = (str "- Diapositivas con gráficas: "
     ++ JsText.numberToString
          (N.of_nat (List.length
             (ScriptJsPage.buildGraphFiles generateGraphHtml slides))))%list /\
  (List.length (ScriptJsPage.buildGraphFiles generateGraphHtml slides)
   <= List.length slides)%nat.
Proof.
  cbv zeta; unfold ScriptJsPage.generateReadme.
  rewrite PackageFacts.split_join.
  - rewrite PackageFacts.buildGraphFiles_eq,
      PackageFacts.numberedPages_length.
    repeat split; apply filter_length_le.
  - discriminate.
  - repeat constructor;
      rewrite forallb_app; apply andb_true_iff; split;
      try reflexivity;
      apply PackageFacts.digits_no_LF, PackageFacts.uintUnits_digits.
Qed.

(** ** Further properties of the parser: what a slide holds *)

Module CleanFacts.

Lemma trimStart_suffix (x : jsstring) :
  exists ws, x = (ws ++ trimStart x)%list.
Proof.
  induction x as [|c x [ws IH]]; [exists []; reflexivity|].
  simpl; destruct (isWhiteSpace c); [|exists []; reflexivity].
  exists (c :: ws); simpl; now rewrite <- IH.
Qed.

Lemma trimStart_fixed (x : jsstring) :
  (forall c x', x = c :: x' -> isWhiteSpace c = false) -> trimStart x = x.
Proof.
  destruct x as [|c x]; [reflexivity|].
  intros H; simpl; now rewrite (H c x eq_refl).
Qed.

Lemma trimStart_idem (x : jsstring) : trimStart (trimStart x) = trimStart x.
Proof.
  apply trimStart_fixed; intros c x' E.
  exact (JsFacts.trimStart_head _ _ _ E).
Qed.

Lemma trim_idem (s : jsstring) : trim (trim s) = trim s.
Proof.
  unfold trim, trimEnd.
  set (u := trimStart s); set (w := trimStart (rev u)).
  assert (Hv : trimStart (rev w) = rev w).
  { apply trimStart_fixed; intros c v' E.
    destruct (trimStart_suffix (rev u)) as [ws Hws]; fold w in Hws.
    assert (Hu : u = (rev w ++ rev ws)%list)
      by (rewrite <- rev_app_distr, <- Hws; now rewrite rev_involutive).
    rewrite E in Hu; simpl in Hu.
    exact (JsFacts.trimStart_head s c _ Hu). }
  rewrite Hv, rev_involutive; unfold w; now rewrite trimStart_idem.
Qed.

Lemma trimmedNonEmpty_trimmed (parts : list jsstring) :
  Forall trimmed (trimmedNonEmpty parts).
Proof.
  unfold trimmedNonEmpty; induction parts as [|p parts IH]; simpl;
    [constructor|].
  destruct (truthy (trim p)); [constructor|]; auto.
  apply trim_idem.
Qed.

Lemma parsedNumbers_not_NaN (parts : list jsstring) :
  Forall (fun v => isNaN v = false) (parsedNumbers parts).
Proof.
  rewrite JsFacts.parsedNumbers_kept; apply JsFacts.keptNumbers_not_NaN.
Qed.

Lemma emptyGraph_clean : graphClean emptyGraph.
Proof. split; constructor. Qed.

Lemma emptySlide_clean : slideClean emptySlide.
Proof. repeat split; constructor. Qed.

Lemma script_js_section_clean (g : Graph) (sec : jsstring) :
  graphClean g -> graphClean (ScriptJs.section g sec).
Proof.
  intros [Hl Hv]; unfold ScriptJs.section.
  destruct (negb (truthy (trim sec))); [now split|].
  destruct (test ScriptJs.reLabels (trim sec));
    [split; [apply trimmedNonEmpty_trimmed|exact Hv]|].
  destruct (test ScriptJs.reValues (trim sec));
    [split; [exact Hl|apply parsedNumbers_not_NaN]|now split].
Qed.

Lemma script_js_dataGraph_clean (rest : jsstring) :
  graphClean (ScriptJs.dataGraph rest).
Proof.
  unfold ScriptJs.dataGraph; generalize emptyGraph_clean.
  generalize emptyGraph.
  induction (split semicolon rest) as [|sec secs IH]; intros g H; [exact H|].
  simpl; apply IH; now apply script_js_section_clean.
Qed.

Lemma legacy_section_clean (g : Graph) (sec : jsstring) :
  graphClean g -> graphClean (Legacy.section g sec).
Proof.
  intros [Hl Hv]; unfold Legacy.section.
  destruct (test Legacy.reLabelsTest sec);
    [split; [apply trimmedNonEmpty_trimmed|exact Hv]|].
  destruct (test Legacy.reValuesTest sec);
    [split; [exact Hl|apply parsedNumbers_not_NaN]|now split].
Qed.

Lemma legacy_dataGraph_clean (rest : jsstring) :
  graphClean (Legacy.dataGraph rest).
Proof.
  unfold Legacy.dataGraph; generalize emptyGraph_clean.
  generalize emptyGraph.
  induction (map trim (split semicolon rest)) as [|sec secs IH];
    intros g H; [exact H|].
  simpl; apply IH; now apply legacy_section_clean.
Qed.

Ltac clean_branches :=
  repeat match goal with
  | |- slideClean (if ?b then _ else _) => destruct b
  end;
  unfold slideClean; simpl; repeat split;
  try assumption; try apply trim_idem;
  try (apply Forall_app; split; [assumption|apply trimmedNonEmpty_trimmed]);
  try apply script_js_dataGraph_clean; try apply legacy_dataGraph_clean.

Lemma script_js_update_clean (line : jsstring) (c : Slide) :
  slideClean c -> slideClean (ScriptJsSpec.update line c).
Proof.
  intros (Ht & Hd & Hc & Ha & Hg); unfold ScriptJsSpec.update.
  clean_branches.
Qed.

Lemma legacy_update_clean (reTitle : regex) (line : jsstring) (c : Slide) :
  slideClean c -> slideClean (LegacySpec.update reTitle line c).
Proof.
  intros (Ht & Hd & Hc & Ha & Hg); unfold LegacySpec.update.
  clean_branches.
Qed.

Lemma startNewSlide_clean (st : State) :
  stateClean st -> stateClean (startNewSlide st).
Proof.
  intros [Hs Hc]; unfold startNewSlide; split; simpl;
    [|apply emptySlide_clean].
  destruct (current st); [|exact Hs].
  apply Forall_app; split; [exact Hs|now constructor].
Qed.

Lemma finish_clean (st : State) : stateClean st -> Forall slideClean (finish st).
Proof.
  intros [Hs Hc]; unfold finish; destruct (current st); [|exact Hs].
  apply Forall_app; split; [exact Hs|now constructor].
Qed.

Lemma initial_clean : stateClean initial.
Proof. split; constructor. Qed.

Lemma script_js_fold_clean (ls : list jsstring) (st : State) :
  stateClean st -> stateClean (fold_left ScriptJsSpec.stepLine ls st).
Proof.
  revert st; induction ls as [|l ls IH]; intros st H; [exact H|].
  simpl; apply IH; unfold ScriptJsSpec.stepLine.
  destruct (test reSlide l); [now apply startNewSlide_clean|].
  destruct H as [Hs Hc]; split; simpl; [exact Hs|].
  apply script_js_update_clean; unfold ScriptJsSpec.cursor.
  destruct (current st); [exact Hc|apply emptySlide_clean].
Qed.

Lemma legacy_processLine_clean (reTitle : regex) (st st' : State)
    (line : jsstring) :
  Legacy.processLine reTitle st line = Ok st' -> stateClean st -> stateClean st'.
Proof.
  destruct (current st) as [c|] eqn:Hc.
  - rewrite (LegacyFacts.processLine_current reTitle st c line Hc).
    intros E; injection E as <-; unfold LegacySpec.stepLine.
    destruct (test reSlide line); [apply startNewSlide_clean|].
    intros [Hs Hok]; split; simpl; [exact Hs|].
    rewrite Hc in Hok |- *; simpl; now apply legacy_update_clean.
  - unfold Legacy.processLine, onCurrent; rewrite Hc.
    destruct (test reSlide line);
      [intros E; injection E as <-; apply startNewSlide_clean|].
    repeat match goal with
    | |- (if ?b then _ else _) = _ -> _ => destruct b
    end; try discriminate.
    intros E; injection E as <-; trivial.
Qed.

Lemma legacy_parse_clean (reTitle : regex) (raw : jsstring) (sl : list Slide) :
  Legacy.parseScript reTitle raw = Ok sl -> Forall slideClean sl.
Proof.
  unfold Legacy.parseScript.
  destruct (forOf (Legacy.processLine reTitle) (Legacy.lines raw) initial)
    as [st|e] eqn:E; simpl; [|discriminate].
  intros E'; injection E' as <-; apply finish_clean.
  revert E; generalize initial_clean; generalize initial.
  induction (Legacy.lines raw) as [|l ls IH]; intros st0 H0.
  - simpl; intros E; injection E as <-; exact H0.
  - simpl; destruct (Legacy.processLine reTitle st0 l) as [st1|e] eqn:E1;
      simpl; [|discriminate].
    apply IH; exact (legacy_processLine_clean _ _ _ _ E1 H0).
Qed.

End CleanFacts.

(** Every string that the parser keeps in a slide - the title, the
    description, each element of the content, of the labels and of the
    attachments - is trimmed, and no value of a graph is [NaN]: in
    [src/script.js] for every input, in the older copies for every input
    on which they return. *)
Theorem slides_hold_trimmed_text :
  (forall raw, exists sl,
      ScriptJs.parseScript raw = Ok sl /\ Forall slideClean sl) /\
  (forall raw sl, Part000.parseScript raw = Ok sl -> Forall slideClean sl) /\
  (forall raw sl, Part001.parseScript raw = Ok sl -> Forall slideClean sl).
Proof.
  split; [|split].
  - intros raw; rewrite ScriptJsFacts.parseScript_eq.
    eexists; split; [reflexivity|].
    apply CleanFacts.finish_clean, CleanFacts.script_js_fold_clean.
    apply CleanFacts.initial_clean.
  - intros raw sl; apply CleanFacts.legacy_parse_clean.
  - intros raw sl; apply CleanFacts.legacy_parse_clean.
Qed.

Lemma slides_hold_trimmed_text_witness :
  Forall slideClean
    [mkSlide (str "A  B") [str "x"; str "y z"]
       (Some (mkGraph [str "p"] [Dec false 1 0])) (str "d") [str "f.pdf"]].
Proof.
  destruct slides_hold_trimmed_text as (_ & H & _).
  apply (H (script ["Diapositiva 1"; "Título:   A  B  ";
                    "  x ;  y z  "; "Datos: labels:  p ; valores: 1, n/a";
                    "Descripción:  d"; "Adjunto:   f.pdf  "])%string).
  vm_compute; reflexivity.
Defined.

(** ** Further properties of the parser: lines and slides *)

Module SlideFacts.

Import PackageFacts.

Lemma joinLines_split (sep : N) (s : jsstring) :
  joinLines [sep] (split sep s) = s.
Proof.
  induction s as [|c s IH]; [reflexivity|].
  simpl split; destruct (c =? sep) eqn:Hc.
  - apply N.eqb_eq in Hc; subst c.
    pose proof (split_nonempty sep s) as Hne.
    destruct (split sep s) as [|p ps] eqn:E; [congruence|].
    change (joinLines [sep] ([] :: p :: ps))
      with ([] ++ [sep] ++ joinLines [sep] (p :: ps))%list.
    now rewrite IH.
  - pose proof (split_nonempty sep s) as Hne.
    destruct (split sep s) as [|p ps] eqn:E; [congruence|].
    destruct ps as [|p2 ps'].
    + simpl in IH |- *; now rewrite IH.
    + change (joinLines [sep] ((c :: p) :: p2 :: ps'))
        with (c :: (p ++ [sep] ++ joinLines [sep] (p2 :: ps')))%list.
      change (joinLines [sep] (p :: p2 :: ps'))
        with (p ++ [sep] ++ joinLines [sep] (p2 :: ps'))%list in IH.
      now rewrite IH.
Qed.

Lemma split_pieces (sep : N) (s : jsstring) :
  Forall (fun p => forallb (fun c => negb (c =? sep)) p = true) (split sep s).
Proof.
  induction s as [|c s IH]; [repeat constructor|].
  simpl; destruct (c =? sep) eqn:Hc; [constructor; [reflexivity|exact IH]|].
  destruct (split sep s) as [|p ps]; [repeat constructor; simpl; now rewrite Hc|].
  inversion IH; subst; constructor; [|assumption].
  simpl; rewrite Hc; simpl; assumption.
Qed.

(** The trimmed lines can be read off the pieces between the line feeds:
    a carriage return at the end of a piece is trimmed away. *)
Lemma trimmedLines_split (raw : jsstring) :
  trimmedLines raw = filter truthy (map trim (split LF raw)).
Proof.
  unfold trimmedLines.
  rewrite <- (joinLines_split LF raw) at 1.
  rewrite (LinesFacts.trimmed_lines_joinLines false);
    [reflexivity|apply split_pieces|apply split_nonempty].
Qed.

Lemma trimmedLines_app (a b : jsstring) :
  trimmedLines (a ++ LF :: b)%list = (trimmedLines a ++ trimmedLines b)%list.
Proof.
  rewrite !trimmedLines_split, split_app_sep, map_app; apply filter_app.
Qed.

(** The slides already in the array are not looked at again. *)
Lemma script_js_fold_prefix (ls : list jsstring) (p sl : list Slide)
    (c : option Slide) :
  fold_left ScriptJsSpec.stepLine ls (mkState (p ++ sl)%list c)
  = mkState
      (p ++ slides (fold_left ScriptJsSpec.stepLine ls (mkState sl c)))%list
      (current (fold_left ScriptJsSpec.stepLine ls (mkState sl c))).
Proof.
  revert sl c; induction ls as [|l ls IH]; intros sl c; [reflexivity|].
  cbn [fold_left]; unfold ScriptJsSpec.stepLine at 2 4 6.
  destruct (test reSlide l).
  - unfold startNewSlide; cbn [slides current].
    destruct c as [c|]; [rewrite <- app_assoc|]; apply IH.
  - unfold ScriptJsSpec.cursor; cbn [slides current]; apply IH.
Qed.

Lemma legacy_fold_prefix (reTitle : regex) (ls : list jsstring)
    (p sl : list Slide) (c : option Slide) :
  fold_left (LegacySpec.stepLine reTitle) ls (mkState (p ++ sl)%list c)
  = mkState
      (p ++ slides (fold_left (LegacySpec.stepLine reTitle) ls (mkState sl c)))%list
      (current (fold_left (LegacySpec.stepLine reTitle) ls (mkState sl c))).
Proof.
  revert sl c; induction ls as [|l ls IH]; intros sl c; [reflexivity|].
  cbn [fold_left]; unfold LegacySpec.stepLine at 2 4 6.
  destruct (test reSlide l).
  - unfold startNewSlide; cbn [slides current].
    destruct c as [c|]; [rewrite <- app_assoc|]; apply IH.
  - cbn [slides current]; apply IH.
Qed.

Lemma finish_prefix (p : list Slide) (st : State) :
  finish (mkState (p ++ slides st)%list (current st)) = (p ++ finish st)%list.
Proof.
  unfold finish; cbn [slides current].
  destruct (current st); [now rewrite app_assoc|reflexivity].
Qed.

Lemma startNewSlide_finish (st : State) :
  startNewSlide st = mkState (finish st ++ [])%list (Some emptySlide).
Proof. unfold startNewSlide, finish; now rewrite app_nil_r. Qed.

Lemma finish_length (st : State) : List.length (finish st) = slideCount st.
Proof.
  unfold finish, slideCount; destruct (current st); [|lia].
  rewrite length_app; simpl; lia.
Qed.

Lemma startNewSlide_size (st : State) :
  slideCount (startNewSlide st) = S (slideCount st).
Proof.
  unfold startNewSlide, slideCount; cbn [slides current].
  destruct (current st); [rewrite length_app; simpl|]; lia.
Qed.

Lemma script_js_fold_size (ls : list jsstring) (st : State) :
  current st <> None ->
  slideCount (fold_left ScriptJsSpec.stepLine ls st)
  = (slideCount st + countMarkers ls)%nat.
Proof.
  revert st; induction ls as [|l ls IH]; intros st H;
    [unfold countMarkers; simpl; lia|].
  cbn [fold_left]; rewrite IH by apply script_js_stepLine_current.
  unfold countMarkers; cbn [filter]; unfold ScriptJsSpec.stepLine.
  destruct (test reSlide l); [rewrite startNewSlide_size; simpl; lia|].
  unfold slideCount, ScriptJsSpec.cursor; cbn [slides current].
  destruct (current st); [lia|congruence].
Qed.

Lemma legacy_processLine_size (reTitle : regex) (st st' : State)
    (line : jsstring) :
  Legacy.processLine reTitle st line = Ok st' ->
  slideCount st' = (slideCount st + if test reSlide line then 1 else 0)%nat.
Proof.
  destruct (current st) as [c|] eqn:Hc.
  - rewrite (LegacyFacts.processLine_current reTitle st c line Hc).
    intros E; injection E as <-; unfold LegacySpec.stepLine.
    destruct (test reSlide line); [rewrite startNewSlide_size; lia|].
    unfold slideCount; cbn [slides current]; rewrite Hc; simpl; lia.
  - unfold Legacy.processLine, onCurrent; rewrite Hc.
    destruct (test reSlide line);
      [intros E; injection E as <-; rewrite startNewSlide_size; lia|].
    repeat match goal with
    | |- (if ?b then _ else _) = _ -> _ => destruct b
    end; try discriminate.
    intros E; injection E as <-; lia.
Qed.

Lemma legacy_forOf_size (reTitle : regex) (ls : list jsstring)
    (st st' : State) :
  forOf (Legacy.processLine reTitle) ls st = Ok st' ->
  slideCount st' = (slideCount st + countMarkers ls)%nat.
Proof.
  revert st; induction ls as [|l ls IH]; intros st.
  - simpl; intros E; injection E as <-; unfold countMarkers; simpl; lia.
  - simpl; destruct (Legacy.processLine reTitle st l) as [st1|e] eqn:E1;
      simpl; [|discriminate].
    intros E; rewrite (IH _ E), (legacy_processLine_size _ _ _ _ E1).
    unfold countMarkers; cbn [filter].
    destruct (test reSlide l); simpl; lia.
Qed.

Lemma legacy_parse_size (reTitle : regex) (raw : jsstring) (sl : list Slide) :
  Legacy.parseScript reTitle raw = Ok sl ->
  List.length sl = countMarkers (trimmedLines raw).
Proof.
  unfold Legacy.parseScript; rewrite LegacyFacts.lines_trimmedLines.
  destruct (forOf (Legacy.processLine reTitle) (trimmedLines raw) initial)
    as [st|e] eqn:E; simpl; [|discriminate].
  intros E'; injection E' as <-.
  now rewrite finish_length, (legacy_forOf_size _ _ _ _ E).
Qed.

End SlideFacts.

(** One slide for each slide marker.  In [src/script.js] there is one
    slide more when the first line that is not blank is no marker: the
    slide made for the lines before the first marker.  In the older
    copies, when they return, the slides are as many as the markers. *)
Theorem one_slide_per_marker :
  (forall raw, exists sl,
      ScriptJs.parseScript raw = Ok sl /\
      List.length sl
      = (countMarkers (trimmedLines raw)
         + match trimmedLines raw with
           | [] => 0
           | l :: _ => if test reSlide l then 0 else 1
           end)%nat) /\
  (forall raw sl,
      Part000.parseScript raw = Ok sl ->
      List.length sl = countMarkers (trimmedLines raw)) /\
  (forall raw sl,
      Part001.parseScript raw = Ok sl ->
      List.length sl = countMarkers (trimmedLines raw)).
Proof.
  split; [|split; intros raw sl; apply SlideFacts.legacy_parse_size].
  intros raw; rewrite ScriptJsFacts.parseScript_eq.
  eexists; split; [reflexivity|].
  rewrite SlideFacts.finish_length.
  destruct (trimmedLines raw) as [|l ls]; [reflexivity|].
  cbn [fold_left].
  rewrite SlideFacts.script_js_fold_size by apply script_js_stepLine_current.
  unfold countMarkers; cbn [filter]; unfold ScriptJsSpec.stepLine.
  destruct (test reSlide l); simpl; lia.
Qed.

Lemma one_slide_per_marker_witness :
  List.length
    [mkSlide (str "A") [] None [] []; mkSlide [] [str "x"] None [] []]
  = countMarkers
      (trimmedLines
         (script ["Diapositiva 1"; "Título: A"; ""; "diapositiva 2"; "x"])).
Proof.
  destruct one_slide_per_marker as (_ & H & _).
  apply (H (script ["Diapositiva 1"; "Título: A"; ""; "diapositiva 2"; "x"])).
  vm_compute; reflexivity.
Defined.

(** Two scripts put one after the other, the second one starting with a
    slide marker (or holding nothing but blank lines), give the slides of
    the first followed by the slides of the second: a marker starts from
    scratch, and the slides before it are not touched again.  In the older
    copies this holds when the first script is one on which they
    return. *)
Theorem scripts_compose_at_a_marker (raw1 raw2 : jsstring) :
  startsWithMarker (trimmedLines raw2) ->
  (exists s1 s2,
      ScriptJs.parseScript raw1 = Ok s1 /\
      ScriptJs.parseScript raw2 = Ok s2 /\
      ScriptJs.parseScript (raw1 ++ LF :: raw2)%list = Ok (s1 ++ s2)%list) /\
  (forall reTitle s1,
      Legacy.parseScript reTitle raw1 = Ok s1 ->
      exists s2,
        Legacy.parseScript reTitle raw2 = Ok s2 /\
        Legacy.parseScript reTitle (raw1 ++ LF :: raw2)%list
        = Ok (s1 ++ s2)%list).
Proof.
  intros Hm; split.
  - rewrite !ScriptJsFacts.parseScript_eq, SlideFacts.trimmedLines_app.
    eexists _, _; split; [reflexivity|split; [reflexivity|]].
    rewrite fold_left_app.
    set (st1 := fold_left ScriptJsSpec.stepLine (trimmedLines raw1) initial).
    destruct (trimmedLines raw2) as [|m ls]; [simpl; now rewrite app_nil_r|].
    simpl in Hm; cbn [fold_left].
    assert (Em : forall st, ScriptJsSpec.stepLine st m = startNewSlide st)
      by (intros st; unfold ScriptJsSpec.stepLine; now rewrite Hm).
    rewrite !Em, (SlideFacts.startNewSlide_finish st1),
      SlideFacts.script_js_fold_prefix, SlideFacts.finish_prefix.
    reflexivity.
  - intros reTitle s1; unfold Legacy.parseScript.
    rewrite !LegacyFacts.lines_trimmedLines, SlideFacts.trimmedLines_app.
    rewrite DeckFacts.forOf_app.
    destruct (forOf (Legacy.processLine reTitle) (trimmedLines raw1) initial)
      as [st1|e]; simpl; [|discriminate].
    intros E; injection E as <-.
    destruct (trimmedLines raw2) as [|m ls];
      [exists []; simpl; now rewrite app_nil_r|].
    simpl in Hm; cbn [forOf].
    assert (Em : forall st,
               Legacy.processLine reTitle st m = Ok (startNewSlide st))
      by (intros st; unfold Legacy.processLine; now rewrite Hm).
    rewrite !Em; cbn [bind].
    rewrite !(LegacyFacts.forOf_current reTitle) by discriminate.
    eexists; split; [reflexivity|]; cbn [bind].
    rewrite (SlideFacts.startNewSlide_finish st1),
      SlideFacts.legacy_fold_prefix, SlideFacts.finish_prefix.
    reflexivity.
Qed.

Lemma scripts_compose_at_a_marker_witness :
  ScriptJs.parseScript
    (script ["intro"; "Título: A"] ++ LF :: script ["Diapositiva 7"; "x"])%list
  = Ok [mkSlide (str "A") [str "intro"] None [] [];
        mkSlide [] [str "x"] None [] []].
Proof.
  destruct (scripts_compose_at_a_marker
              (script ["intro"; "Título: A"]) (script ["Diapositiva 7"; "x"]))
    as ((s1 & s2 & H1 & H2 & H) & _).
  - reflexivity.
  - rewrite H; injection H1 as <-; injection H2 as <-; reflexivity.
Defined.

(** The line endings do not matter: the same lines joined by a carriage
    return and a line feed or by a line feed alone parse alike, in each of
    the three copies. *)
Theorem line_endings_do_not_matter (ls : list jsstring) :
  Forall (fun l => noLF l = true) ls ->
  ScriptJs.parseScript (joinLines [CR; LF] ls)
  = ScriptJs.parseScript (joinLines [LF] ls) /\
  Part000.parseScript (joinLines [CR; LF] ls)
  = Part000.parseScript (joinLines [LF] ls) /\
  Part001.parseScript (joinLines [CR; LF] ls)
  = Part001.parseScript (joinLines [LF] ls).
Proof.
  intros H.
  assert (E : trimmedLines (joinLines [CR; LF] ls)
              = trimmedLines (joinLines [LF] ls)).
  { destruct ls as [|l ls']; [reflexivity|].
    unfold trimmedLines.
    rewrite (trimmed_lines_joinLines true), (trimmed_lines_joinLines false);
      (reflexivity || assumption || discriminate). }
  split; [|split].
  - now rewrite !ScriptJsFacts.parseScript_eq, E.
  - unfold Part000.parseScript, Legacy.parseScript.
    now rewrite !LegacyFacts.lines_trimmedLines, E.
  - unfold Part001.parseScript, Legacy.parseScript.
    now rewrite !LegacyFacts.lines_trimmedLines, E.
Qed.

Lemma line_endings_do_not_matter_witness :
  ScriptJs.parseScript
    (joinLines [CR; LF] [str "Diapositiva 1"; str "Título: A"; str "x; y"])
  = ScriptJs.parseScript
      (joinLines [LF] [str "Diapositiva 1"; str "Título: A"; str "x; y"]).
Proof.
  destruct (line_endings_do_not_matter
              [str "Diapositiva 1"; str "Título: A"; str "x; y"]) as (H & _).
  - repeat constructor.
  - exact H.
Defined.

(** ** Further properties of the parser: when the older copies fail *)

Lemma legacy_keyword_throws (reTitle : regex) (st : State) (line : jsstring) :
  current st = None ->
  test reSlide line = false ->
  LegacySpec.unrecognized reTitle line = false ->
  Legacy.processLine reTitle st line = Throw TypeError.
Proof.
  unfold LegacySpec.unrecognized, Legacy.processLine, onCurrent.
  intros Hc Hs H; rewrite Hs, Hc in *.
  repeat match goal with
  | |- (if ?b then _ else _) = _ => destruct b; simpl in H
  end; try reflexivity; discriminate.
Qed.

Lemma legacy_run_from_null (reTitle : regex) (ls : list jsstring) :
  if keywordBeforeMarker reTitle ls
  then forOf (Legacy.processLine reTitle) ls initial = Throw TypeError
  else exists st, forOf (Legacy.processLine reTitle) ls initial = Ok st.
Proof.
  induction ls as [|l ls IH]; [exists initial; reflexivity|].
  cbn [keywordBeforeMarker forOf].
  destruct (test reSlide l) eqn:Hs.
  - assert (E : Legacy.processLine reTitle initial l
                = Ok (startNewSlide initial))
      by (unfold Legacy.processLine; now rewrite Hs).
    rewrite E; cbn [bind].
    rewrite (LegacyFacts.forOf_current reTitle) by discriminate.
    eexists; reflexivity.
  - destruct (LegacySpec.unrecognized reTitle l) eqn:Hu.
    + now rewrite (legacy_skips_unrecognized reTitle initial l eq_refl Hu).
    + now rewrite (legacy_keyword_throws reTitle initial l eq_refl Hs Hu).
Qed.

(** The older copies fail exactly on the inputs in which a line with a
    keyword (Title, Content, Data, Description, Attachment) comes before
    the first slide marker: such an input throws a [TypeError], and every
    other input gives slides. *)
Theorem older_copies_fail_on_early_keyword (raw : jsstring) :
  (if keywordBeforeMarker Part000.reTitle (trimmedLines raw)
   then Part000.parseScript raw = Throw TypeError
   else exists sl, Part000.parseScript raw = Ok sl) /\
  (if keywordBeforeMarker Part001.reTitle (trimmedLines raw)
   then Part001.parseScript raw = Throw TypeError
   else exists sl, Part001.parseScript raw = Ok sl).
Proof.
  split.
  - unfold Part000.parseScript, Legacy.parseScript.
    rewrite LegacyFacts.lines_trimmedLines.
    pose proof (legacy_run_from_null Part000.reTitle (trimmedLines raw)) as H.
    destruct (keywordBeforeMarker Part000.reTitle (trimmedLines raw));
      [now rewrite H|].
    destruct H as [st ->]; eexists; reflexivity.
  - unfold Part001.parseScript, Legacy.parseScript.
    rewrite LegacyFacts.lines_trimmedLines.
    pose proof (legacy_run_from_null Part001.reTitle (trimmedLines raw)) as H.
    destruct (keywordBeforeMarker Part001.reTitle (trimmedLines raw));
      [now rewrite H|].
    destruct H as [st ->]; eexists; reflexivity.
Qed.

(** ** Further properties of the parser: the fields of a slide *)

Module FieldFacts.

Import ScriptJs.

Lemma stripPrefixCI_head2 (a b : N) (p s r : jsstring) :
  stripPrefixCI (a :: b :: p) s = Some r ->
  exists c1 c2 s', s = c1 :: c2 :: s' /\
    canonicalize c1 = canonicalize a /\ canonicalize c2 = canonicalize b.
Proof.
  intros E; apply stripPrefixCI_inv in E as (w & -> & Hw).
  inversion Hw as [|a' c1 p' w' H1 Hw']; subst.
  inversion Hw' as [|b' c2 p'' w'' H2 _]; subst.
  apply N.eqb_eq in H1, H2.
  exists c1, c2, (w'' ++ r)%list; repeat split; congruence.
Qed.

Lemma reDescription_head (s : jsstring) :
  test reDescription s = true ->
  exists c1 c2 s', s = c1 :: c2 :: s' /\
    canonicalize c1 = 68 /\ canonicalize c2 = 69.
Proof.
  unfold test, exec, reDescription; cbn [rmatch].
  destruct (stripPrefixCI (str "Descripción") s) as [r|] eqn:E1.
  - intros _.
    change (str "Descripción") with (68 :: 101 :: str "scripción") in E1.
    exact (stripPrefixCI_head2 _ _ _ _ _ E1).
  - destruct (stripPrefixCI (str "Descripcion") s) as [r|] eqn:E2;
      [|discriminate].
    intros _.
    change (str "Descripcion") with (68 :: 101 :: str "scripcion") in E2.
    exact (stripPrefixCI_head2 _ _ _ _ _ E2).
Qed.

(** A Title line is taken by the Title branch. *)
Lemma title_line_branch (line : jsstring) :
  test reTitle line = true ->
  truthy line = true /\ test reSlide line = false.
Proof.
  intros H; apply test_head in H as (c & s' & -> & Hin); [|reflexivity].
  split; [reflexivity|].
  apply not_reSlide_by_head.
  simpl in Hin; destruct Hin as [E|[E|[]]]; rewrite <- E; discriminate.
Qed.

(** A Description line is taken by the Description branch. *)
Lemma description_line_branch (line : jsstring) :
  test reDescription line = true ->
  truthy line = true /\ test reSlide line = false /\
  test reTitle line = false /\ test reContent line = false /\
  test reData line = false.
Proof.
  intros H; apply reDescription_head in H as (c1 & c2 & s' & -> & H1 & H2).
  split; [reflexivity|split; [|split; [|split]]].
  - apply not_reSlide_by_second; rewrite H2; discriminate.
  - apply test_false_by_head; [reflexivity|].
    rewrite H1; simpl; intros [E|[E|[]]]; discriminate.
  - apply test_false_by_head; [reflexivity|].
    rewrite H1; simpl; intros [E|[E|[]]]; discriminate.
  - destruct (test reData (c1 :: c2 :: s')) eqn:E; [|reflexivity].
    change reData with (Chars (68 :: 97 :: str "tos:")) in E.
    apply Chars_head2 in E as (d1 & d2 & t & Hcs & _ & Hd2).
    injection Hcs as _ <- _.
    change (canonicalize 97) with 65 in Hd2; congruence.
Qed.

(** An Attachment line is taken by the Attachment branch. *)
Lemma attachment_line_branch (line : jsstring) :
  test reAttachment line = true ->
  truthy line = true /\ test reSlide line = false /\
  test reTitle line = false /\ test reContent line = false /\
  test reData line = false /\ test reDescription line = false.
Proof.
  intros H; apply test_head in H as (c & s' & -> & Hin); [|reflexivity].
  simpl in Hin; destruct Hin as [E|[]].
  split; [reflexivity|].
  split; [apply not_reSlide_by_head; rewrite <- E; discriminate|].
  repeat split; (apply test_false_by_head; [reflexivity|]);
    rewrite <- E; simpl; intuition discriminate.
Qed.

Lemma update_title (line : jsstring) (c : Slide) :
  title (ScriptJsSpec.update line c)
  = if test reTitle line then trim (replace reTitle line) else title c.
Proof.
  unfold ScriptJsSpec.update.
  repeat match goal with
  | |- title (if ?b then _ else _) = _ => destruct b
  end; reflexivity.
Qed.

Lemma update_description (line : jsstring) (c : Slide) :
  description (ScriptJsSpec.update line c)
  = if test reDescription line then trim (replace reDescription line)
    else description c.
Proof.
  destruct (test reDescription line) eqn:H.
  - destruct (description_line_branch line H) as (_ & _ & Ht & Hc & Hd).
    unfold ScriptJsSpec.update; now rewrite Ht, Hc, Hd, H.
  - unfold ScriptJsSpec.update; rewrite H.
    repeat match goal with
    | |- description (if ?b then _ else _) = _ => destruct b
    end; reflexivity.
Qed.

Lemma update_attachments (line : jsstring) (c : Slide) :
  attachments (ScriptJsSpec.update line c)
  = (attachments c ++ attachmentsOf line)%list.
Proof.
  unfold attachmentsOf.
  destruct (test reAttachment line) eqn:H.
  - destruct (attachment_line_branch line H) as (_ & _ & Ht & Hc & Hd & He).
    unfold ScriptJsSpec.update; rewrite Ht, Hc, Hd, He, H.
    destruct (trim (replace reAttachment line)) eqn:E; [|reflexivity].
    simpl; now rewrite app_nil_r.
  - unfold ScriptJsSpec.update; rewrite H.
    repeat match goal with
    | |- attachments (if ?b then _ else _) = _ => destruct b
    end; simpl; now rewrite app_nil_r.
Qed.

(** The lines of one slide: no marker among them. *)
Lemma fold_one_slide (ls : list jsstring) :
  Forall (fun l => test reSlide l = false) ls ->
  forall sl c,
  exists c',
    fold_left ScriptJsSpec.stepLine ls (mkState sl (Some c))
    = mkState sl (Some c') /\
    c' = fold_left (fun s l => ScriptJsSpec.update l s) ls c.
Proof.
  induction 1 as [|l ls Hl _ IH]; intros sl c;
    [exists c; split; reflexivity|].
  cbn [fold_left]; unfold ScriptJsSpec.stepLine at 2; rewrite Hl.
  unfold ScriptJsSpec.cursor; cbn [slides current]; apply IH.
Qed.

Lemma fold_update_attachments (ls : list jsstring) (c : Slide) :
  attachments (fold_left (fun s l => ScriptJsSpec.update l s) ls c)
  = (attachments c ++ flat_map attachmentsOf ls)%list.
Proof.
  revert c; induction ls as [|l ls IH]; intros c;
    [simpl; now rewrite app_nil_r|].
  simpl; now rewrite IH, update_attachments, <- app_assoc.
Qed.

Lemma fold_update_title (post : list jsstring) (c : Slide) :
  Forall (fun l => test reTitle l = false) post ->
  title (fold_left (fun s l => ScriptJsSpec.update l s) post c) = title c.
Proof.
  intros H; revert c; induction H as [|l post Hl _ IH]; intros c;
    [reflexivity|].
  simpl; now rewrite IH, update_title, Hl.
Qed.

Lemma fold_update_description (post : list jsstring) (c : Slide) :
  Forall (fun l => test reDescription l = false) post ->
  description (fold_left (fun s l => ScriptJsSpec.update l s) post c)
  = description c.
Proof.
  intros H; revert c; induction H as [|l post Hl _ IH]; intros c;
    [reflexivity|].
  simpl; now rewrite IH, update_description, Hl.
Qed.

End FieldFacts.

(** The title of a slide of [src/script.js] is that of its last Title
    line: for the lines of one slide (a marker and lines that are no
    markers), what came before the last Title line does not count. *)
Theorem last_title_wins (raw m t : jsstring) (pre post : list jsstring) :
  trimmedLines raw = (m :: pre ++ t :: post)%list ->
  test reSlide m = true ->
  Forall (fun l => test reSlide l = false) (pre ++ t :: post)%list ->
  test ScriptJs.reTitle t = true ->
  Forall (fun l => test ScriptJs.reTitle l = false) post ->
  exists c,
    ScriptJs.parseScript raw = Ok [c] /\
    title c = trim (replace ScriptJs.reTitle t).
Proof.
  intros E Hm Hno Ht Hpost; rewrite ScriptJsFacts.parseScript_eq, E.
  cbn [fold_left]; unfold ScriptJsSpec.stepLine at 2; rewrite Hm.
  destruct (FieldFacts.fold_one_slide _ Hno [] emptySlide) as (c & Ec & Hc).
  change (startNewSlide initial) with (mkState [] (Some emptySlide)).
  rewrite Ec.
  exists c; split; [reflexivity|].
  rewrite fold_left_app in Hc; cbn [fold_left] in Hc; rewrite Hc.
  rewrite FieldFacts.fold_update_title by assumption.
  now rewrite FieldFacts.update_title, Ht.
Qed.

Lemma last_title_wins_witness :
  exists c,
    ScriptJs.parseScript
      (script ["Diapositiva 1"; "Título: A"; "x"; "TITULO:  B "; "y"])
    = Ok [c] /\
    title c = str "B".
Proof.
  apply (last_title_wins
           (script ["Diapositiva 1"; "Título: A"; "x"; "TITULO:  B "; "y"])
           (str "Diapositiva 1") (str "TITULO:  B")
           [str "Título: A"; str "x"] [str "y"]).
  - reflexivity.
  - reflexivity.
  - repeat constructor.
  - reflexivity.
  - repeat constructor.
Defined.

(** The description of a slide of [src/script.js] is that of its last
    Description line, whatever the other lines of the slide are. *)
Theorem last_description_wins (raw m t : jsstring) (pre post : list jsstring) :
  trimmedLines raw = (m :: pre ++ t :: post)%list ->
  test reSlide m = true ->
  Forall (fun l => test reSlide l = false) (pre ++ t :: post)%list ->
  test ScriptJs.reDescription t = true ->
  Forall (fun l => test ScriptJs.reDescription l = false) post ->
  exists c,
    ScriptJs.parseScript raw = Ok [c] /\
    description c = trim (replace ScriptJs.reDescription t).
Proof.
  intros E Hm Hno Ht Hpost; rewrite ScriptJsFacts.parseScript_eq, E.
  cbn [fold_left]; unfold ScriptJsSpec.stepLine at 2; rewrite Hm.
  destruct (FieldFacts.fold_one_slide _ Hno [] emptySlide) as (c & Ec & Hc).
  change (startNewSlide initial) with (mkState [] (Some emptySlide)).
  rewrite Ec.
  exists c; split; [reflexivity|].
  rewrite fold_left_app in Hc; cbn [fold_left] in Hc; rewrite Hc.
  rewrite FieldFacts.fold_update_description by assumption.
  now rewrite FieldFacts.update_description, Ht.
Qed.

Lemma last_description_wins_witness :
  exists c,
    ScriptJs.parseScript
      (script ["Diapositiva 1"; "Descripción: a"; "descripcion: b; c";
               "Datos: 1, 2"])
    = Ok [c] /\
    description c = str "b; c".
Proof.
  apply (last_description_wins
           (script ["Diapositiva 1"; "Descripción: a"; "descripcion: b; c";
                    "Datos: 1, 2"])
           (str "Diapositiva 1") (str "descripcion: b; c")
           [str "Descripción: a"] [str "Datos: 1, 2"]).
  - reflexivity.
  - reflexivity.
  - repeat constructor.
  - reflexivity.
  - repeat constructor.
Defined.

(** Attachment lines accumulate: the attachments of a slide of
    [src/script.js] are the fragments of all its Attachment lines, in the
    order of the lines, and no other line adds to them or takes from
    them. *)
Theorem attachment_lines_accumulate (raw m : jsstring) (ls : list jsstring) :
  trimmedLines raw = m :: ls ->
  test reSlide m = true ->
  Forall (fun l => test reSlide l = false) ls ->
  exists c,
    ScriptJs.parseScript raw = Ok [c] /\
    attachments c = flat_map attachmentsOf ls.
Proof.
  intros E Hm Hno; rewrite ScriptJsFacts.parseScript_eq, E.
  cbn [fold_left]; unfold ScriptJsSpec.stepLine at 2; rewrite Hm.
  destruct (FieldFacts.fold_one_slide _ Hno [] emptySlide) as (c & Ec & Hc).
  change (startNewSlide initial) with (mkState [] (Some emptySlide)).
  rewrite Ec.
  exists c; split; [reflexivity|].
  now rewrite Hc, FieldFacts.fold_update_attachments.
Qed.

Lemma attachment_lines_accumulate_witness :
  exists c,
    ScriptJs.parseScript
      (script ["Diapositiva 1"; "Adjunto: a.pdf, b.png"; "x";
               "adjunto: ; c.txt,"])
    = Ok [c] /\
    attachments c = [str "a.pdf"; str "b.png"; str "; c.txt"].
Proof.
  apply (attachment_lines_accumulate
           (script ["Diapositiva 1"; "Adjunto: a.pdf, b.png"; "x";
                    "adjunto: ; c.txt,"])
           (str "Diapositiva 1")
           [str "Adjunto: a.pdf, b.png"; str "x"; str "adjunto: ; c.txt,"]).
  - reflexivity.
  - reflexivity.
  - repeat constructor.
Defined.

(** ** Further properties: the submit handler *)

Module HandlerFacts.

Lemma trimStart_nil (s : jsstring) :
  trimStart s = [] -> whitespaceOnly s = true.
Proof.
  induction s as [|a s IH]; simpl; [reflexivity|].
  destruct (isWhiteSpace a); [exact IH|discriminate].
Qed.

(** Only a string of white space is trimmed to the empty string. *)
Lemma trim_nil (s : jsstring) : trim s = [] -> whitespaceOnly s = true.
Proof.
  unfold trim, trimEnd; intros E.
  assert (E' : trimStart (rev (trimStart s)) = []).
  { destruct (trimStart (rev (trimStart s))) as [|c t]; [reflexivity|].
    simpl in E; destruct (rev t); discriminate. }
  apply trimStart_nil in E'.
  destruct (trimStart s) as [|c t] eqn:Es; [now apply trimStart_nil|].
  apply trimStart_head in Es.
  simpl rev in E'; rewrite whitespaceOnly_app in E'.
  apply andb_prop in E' as [_ E']; simpl in E'.
  rewrite Es in E'; discriminate.
Qed.

Lemma isWhiteSpace_LF (c : N) : (c =? LF) = true -> isWhiteSpace c = true.
Proof. intros H; apply N.eqb_eq in H; now subst. Qed.

Lemma isWhiteSpace_CR (c : N) : (c =? CR) = true -> isWhiteSpace c = true.
Proof. intros H; apply N.eqb_eq in H; now subst. Qed.

(** Lines of white space come from a text of white space: the line breaks
    are white space themselves. *)
Lemma splitLines_blank_aux (s : jsstring) :
  (Forall (fun l => whitespaceOnly l = true) (splitLines s) ->
   whitespaceOnly s = true) /\
  (forall c,
     Forall (fun l => whitespaceOnly l = true) (splitLines (c :: s)) ->
     whitespaceOnly (c :: s) = true).
Proof.
  induction s as [|c' s [IH1 IH2]].
  - split; [reflexivity|].
    intros c; simpl; destruct (c =? LF) eqn:Hc.
    + intros _; now rewrite (isWhiteSpace_LF c Hc).
    + intros H; now inversion H.
  - split; [apply IH2|].
    intros c.
    change (splitLines (c :: c' :: s))
      with (if c =? LF then [] :: splitLines (c' :: s)
            else if (c =? CR) && (c' =? LF) then [] :: splitLines s
            else match splitLines (c' :: s) with
                 | line :: lines => (c :: line) :: lines
                 | [] => [[c]]
                 end).
    destruct (c =? LF) eqn:Hc.
    { intros H; inversion H as [|? ? _ Ht]; subst.
      cbn [whitespaceOnly forallb]; rewrite (isWhiteSpace_LF c Hc).
      exact (IH2 c' Ht). }
    destruct ((c =? CR) && (c' =? LF)) eqn:Hcr.
    { apply andb_prop in Hcr as [H1 H2].
      intros H; inversion H as [|? ? _ Ht]; subst.
      cbn [whitespaceOnly forallb].
      rewrite (isWhiteSpace_CR c H1), (isWhiteSpace_LF c' H2).
      exact (IH1 Ht). }
    specialize (IH2 c').
    destruct (splitLines (c' :: s)) as [|line rest].
    + intros H; inversion H as [|? ? Hh _]; subst.
      cbn [whitespaceOnly forallb] in Hh |- *.
      apply andb_prop in Hh as [Hh _]; rewrite Hh.
      apply IH2; constructor.
    + intros H; inversion H as [|? ? Hh Ht]; subst.
      cbn [whitespaceOnly forallb] in Hh.
      apply andb_prop in Hh as [Hh1 Hh2].
      change (whitespaceOnly (c :: c' :: s))
        with (isWhiteSpace c && whitespaceOnly (c' :: s)).
      rewrite Hh1; apply IH2; constructor; assumption.
Qed.

(** A text none of whose lines is left after trimming is white space. *)
Lemma trimmedLines_nil (raw : jsstring) :
  trimmedLines raw = [] -> whitespaceOnly raw = true.
Proof.
  unfold trimmedLines; intros E.
  apply (proj1 (splitLines_blank_aux raw)).
  induction (splitLines raw) as [|l ls IH]; [constructor|].
  simpl in E; destruct (trim l) eqn:El; [|discriminate].
  constructor; [now apply trim_nil|exact (IH E)].
Qed.

End HandlerFacts.

(** The message that no slide was found is never shown.  The handler trims
    the text of the input field and returns at the alert when nothing is
    left; a text with anything left has a line that is not blank, and
    [parseScript] of [src/script.js] makes a slide for it, marker or not.
    So the handler either alerts, exactly for a text that is white space
    only, or goes on with at least one slide. *)
Theorem no_slides_message_is_unreachable
    (generateGraphHtml : Slide -> N -> jsstring) (value : jsstring) :
  ScriptJsPage.onSubmit generateGraphHtml value <> Ok ScriptJsPage.NoSlides /\
  if whitespaceOnly value
  then ScriptJsPage.onSubmit generateGraphHtml value = Ok ScriptJsPage.Alerted
  else
    exists slides,
      ScriptJs.parseScript (trim value) = Ok slides /\
      slides <> [] /\
      ScriptJsPage.onSubmit generateGraphHtml value
      = Ok (ScriptJsPage.Built slides
              (ScriptJsPage.buildGraphFiles generateGraphHtml slides)).
Proof.
  unfold ScriptJsPage.onSubmit.
  destruct (whitespaceOnly value) eqn:W.
  - assert (E : trim value = [])
      by (unfold trim; now rewrite (trimStart_whitespaceOnly value W)).
    rewrite E; split; [discriminate|reflexivity].
  - destruct (truthy (trim value)) eqn:T.
    + destruct (script_js_never_throws (trim value)) as [sl Hsl].
      rewrite Hsl; cbn [negb bind].
      assert (Hne : sl <> []).
      { intros ->; apply script_js_empty_result in Hsl.
        apply HandlerFacts.trimmedLines_nil in Hsl.
        rewrite (trim_not_whitespaceOnly value T) in Hsl; discriminate. }
      destruct sl as [|c sl]; [now elim Hne|].
      split; [discriminate|].
      exists (c :: sl); repeat split; assumption || reflexivity.
    + destruct (trim value) eqn:E; [|discriminate].
      apply HandlerFacts.trim_nil in E; congruence.
Qed.
